(** * A shallow embedding of [file_manager.c]

    The C program is a menu-driven manager for text files of the working
    directory: it creates, deletes, copies and displays files, edits them
    line by line through a scratch file, and keeps one changelog per file.
    This development embeds the file operations behind the menu, and the
    functions of the menu that call them, into Rocq and checks the
    statements of the specification against them.

    Modelling decisions, all read off the source:

    - the file system is a finite map from absolute paths to byte sequences,
      together with the process' working directory; a relative path is
      resolved against the working directory.  Directories, permissions and
      I/O errors are not modelled: [fopen] for reading fails exactly when the
      file is missing, [fopen] for writing or appending always succeeds,
      [remove] and [rename] fail exactly when their (first) argument is
      missing;
    - a [FILE *] is the path of the file it was opened on; every read of the
      program starts at offset 0 and runs to the end of the file, every write
      goes to the end of the file, so no stream position is kept;
    - C [int]s are integers of [Z]; the only arithmetic of the modelled code
      is the increment of line counters, which stays far below [2^31] for
      any file under 2 GiB;
    - a [const char *] argument is the sequence of characters of the C string
      (the bytes before its terminating NUL); file names are assumed to fit
      the fixed-size buffers of the source;
    - two places of the source read memory that the program never wrote:
      [getNumberOfLinesInFile] tests [current_character] before assigning it,
      and [copyFile]/[displayFile] print with ["%s"] a buffer that
      [getFileContents] filled without a terminating NUL.  Both values are
      made explicit as the section variables [uninit] and [beyond];
    - [stderr] is not modelled; [stdout] is;
    - for the functions of the menu, [stdin] is the sequence of bytes still
      to be read; [atoi] and the contents of the local arrays before
      [getInput] fills them are section variables.  The listing of the
      directory, the creation of the changelog directory and the loop of
      [main] are outside the model. *)

From Stdlib Require Import ZArith Ascii String List Lia.
From stdpp Require Import gmap strings pretty list.
Import ListNotations.

Local Open Scope Z_scope.

(** ** Constants of the source *)

Definition SUCCESS : Z := 0.
Definition FAILURE : Z := -1.

(** [EOF] as returned by [fgetc]. *)
Definition EOF : Z := -1.

Definition TEMP_FILE_NAME : string := "file.tmp".
Definition CHANGELOG_NAME : string := "changelog".

(** The line-break ['\n'] and the string terminator ['\0']. *)
Definition LF : ascii := "010"%char.
Definition NUL : ascii := "000"%char.

(** The six action constants [ACTION_*]. *)
Inductive action : Type :=
| ACTION_INSERT_LINE
| ACTION_APPEND_LINE
| ACTION_DELETE_LINE
| ACTION_CREATE_FILE
| ACTION_READ_FILE
| ACTION_READ_LINE.

Definition action_code (a : action) : Z :=
  match a with
  | ACTION_INSERT_LINE => 0
  | ACTION_APPEND_LINE => 1
  | ACTION_DELETE_LINE => 2
  | ACTION_CREATE_FILE => 3
  | ACTION_READ_FILE => 4
  | ACTION_READ_LINE => 5
  end.

(** ** Bytes and text *)

(** The characters of a string literal, as written to a file. *)
Definition text (s : string) : list ascii := list_ascii_of_string s.

(** The value [fgetc] returns for a byte: the byte as an [unsigned char]
    converted to [int], hence never [EOF]. *)
Definition int_of_char (c : ascii) : Z := Z.of_N (N_of_ascii c).

(** What ["%s"] prints from a buffer: the bytes before the first NUL. *)
Fixpoint cstring (buffer : list ascii) : list ascii :=
  match buffer with
  | [] => []
  | c :: buffer' => if decide (c = NUL) then [] else c :: cstring buffer'
  end.

(** ["%d"] *)
Definition decimal (n : Z) : list ascii := text (pretty n).

(** ** The process state *)

Inductive mode : Type := Mode_r | Mode_rb | Mode_w | Mode_a.

(** The library calls that touch a file, in the order the program makes
    them. [Call_scan] is the [fgetc] loop of [getNumberOfLinesInFile] with
    its [fseek]; [Call_copy] is a [getc]/[putc] loop from one stream to
    another. *)
Inductive call : Type :=
| Call_fopen (path : string) (m : mode)
| Call_scan (path : string)
| Call_copy (source target : string)
| Call_fclose (path : string)
| Call_remove (path : string)
| Call_rename (old new : string).

Record world : Type := World {
  cwd : string;
  files : gmap string (list ascii);
  stdout : list ascii;
  calls : list call
}.

(** A [FILE *] that is not [NULL]: the path the stream was opened on. *)
Abbreviation FILE := string (only parsing).

(** Path resolution: an absolute path stands for itself, any other path is
    taken from the working directory. *)
Definition is_absolute (path : string) : bool :=
  match path with
  | String "/"%char _ => true
  | _ => false
  end.

Definition resolve (directory path : string) : string :=
  if is_absolute path then path else directory +:+ "/" +:+ path.

(** ** A state monad over the process state *)

Definition io (A : Type) : Type := world -> A * world.

Global Instance io_ret : MRet io := fun A (a : A) w => (a, w).
Global Instance io_bind : MBind io :=
  fun A B (f : A -> io B) (c : io A) w => let (a, w') := c w in f a w'.

Definition set_files (f : gmap string (list ascii) -> gmap string (list ascii))
    (w : world) : world :=
  World (cwd w) (f (files w)) (stdout w) (calls w).

Definition record_call (c : call) : io unit :=
  fun w => (tt, World (cwd w) (files w) (stdout w) (calls w ++ [c])).

(** [printf] to [stdout], given the characters the format produces. *)
Definition printf (s : list ascii) : io unit :=
  fun w => (tt, World (cwd w) (files w) (stdout w ++ s) (calls w)).

Definition is_file (w : world) (path : string) : bool :=
  match files w !! path with
  | Some _ => true
  | None => false
  end.

(** ** The C library, as far as the program uses it *)

(** [access(path, F_OK)]: 0 when the file is there, -1 otherwise. *)
Definition access (path : string) : io Z :=
  fun w => (if is_file w (resolve (cwd w) path) then 0 else -1, w).

Definition fopen (path : string) (m : mode) : io (option FILE) :=
  fun w =>
    let p := resolve (cwd w) path in
    let w := snd (record_call (Call_fopen p m) w) in
    match m with
    | Mode_r | Mode_rb =>
        (if is_file w p then Some p else None, w)
    | Mode_w => (Some p, set_files <[p := []]> w)
    | Mode_a =>
        (Some p, if is_file w p then w else set_files <[p := []]> w)
    end.

Definition fclose (file : FILE) : io unit := record_call (Call_fclose file).

(** The bytes a stream yields when it is read from its start to [EOF]. *)
Definition stream (file : FILE) : io (list ascii) :=
  fun w => (default [] (files w !! file), w).

(** [fputs], [putc] and [fprintf] on a stream opened for writing. *)
Definition fwrite (file : FILE) (bytes : list ascii) : io unit :=
  fun w => (tt, set_files (alter (fun old => old ++ bytes) file) w).

Definition remove (path : string) : io Z :=
  fun w =>
    let p := resolve (cwd w) path in
    let w := snd (record_call (Call_remove p) w) in
    if is_file w p then (0, set_files (delete p) w) else (-1, w).

Definition rename (old new : string) : io Z :=
  fun w =>
    let p := resolve (cwd w) old in
    let q := resolve (cwd w) new in
    let w := snd (record_call (Call_rename p q) w) in
    match files w !! p with
    | Some bytes => (0, set_files (fun m => <[q := bytes]> (delete p m)) w)
    | None => (-1, w)
    end.

(** A C condition [if (e)] on an [int]. *)
Definition truthy (e : Z) : bool := negb (e =? 0).

(** ** The program *)

Section Program.

(** The value [current_character] holds when [getNumberOfLinesInFile] is
    entered: the variable is declared without an initialiser and tested by
    the loop condition before its first assignment. *)
Variable uninit : Z.

(** The bytes that follow the buffer of [getFileContents] in memory: the
    buffer is [malloc(size_of_file)], filled by [fread], and handed to
    ["%s"] without a terminating NUL. *)
Variable beyond : list ascii.

Definition fileExists (file_name : string) : io Z :=
  r ← access file_name;
  mret (if r =? 0 then 1 else 0).

Definition openFile (file_name : string) (m : mode) : io (option FILE) :=
  fopen file_name m.

Definition createFile (file_name : string) : io Z :=
  e ← fileExists file_name;
  if truthy e then mret FAILURE
  else
    file ← openFile file_name Mode_a;
    match file with
    | None => mret FAILURE
    | Some file => fclose file;; mret SUCCESS
    end.

Definition deleteFile (file_name : string) : io Z :=
  r ← remove file_name;
  if truthy r then mret FAILURE else mret SUCCESS.

Definition wrename (old_file_name new_file_name : string) : io Z :=
  r ← rename old_file_name new_file_name;
  if truthy r then mret FAILURE else mret SUCCESS.

Definition getChangelogFileName (file_name : string) : string :=
  file_name +:+ ".changelog".

(** The loop of [getNumberOfLinesInFile]:
    [while (current_character != EOF)
       { current_character = fgetc(file);
         if (current_character == '\n') line_count++; }]
    over the bytes still to be read. *)
Fixpoint lines_loop (current_character : Z) (rest : list ascii)
    (line_count : Z) : Z :=
  if current_character =? EOF then line_count
  else
    match rest with
    | [] => line_count
    | c :: rest' =>
        lines_loop (int_of_char c) rest'
          (if int_of_char c =? int_of_char LF then line_count + 1
           else line_count)
    end.

Definition getNumberOfLinesInFile (file : FILE) : io Z :=
  input ← stream file;
  record_call (Call_scan file);;
  mret (lines_loop uninit input 0).

Definition validateLineNumber (file : FILE) (line_number : Z) : io Z :=
  line_count ← getNumberOfLinesInFile file;
  if (line_number >? line_count) || (line_number <? 1) then mret FAILURE
  else mret SUCCESS.

(** The buffer holds the bytes of the file and nothing more. *)
Definition getFileContents (file : FILE) : io (list ascii) :=
  stream file.

(** What ["%s"] prints when given the buffer of [getFileContents]. *)
Definition printed (file_contents : list ascii) : list ascii :=
  cstring (file_contents ++ beyond).

Definition copyFile (source_file_name new_file_name : string) : io Z :=
  e ← fileExists new_file_name;
  if truthy e then mret FAILURE
  else
    source_file ← openFile source_file_name Mode_r;
    match source_file with
    | None => mret FAILURE
    | Some source_file =>
        created ← createFile new_file_name;
        if truthy created then mret FAILURE
        else
          file_contents ← getFileContents source_file;
          new_file ← openFile new_file_name Mode_w;
          match new_file with
          | None => mret FAILURE
          | Some new_file =>
              fwrite new_file (printed file_contents);;
              fclose new_file;;
              mret SUCCESS
          end
    end.

Definition appendLineToFile (file_name : string) (content : list ascii)
    : io Z :=
  e ← fileExists file_name;
  if negb (truthy e) then mret FAILURE
  else
    file ← openFile file_name Mode_a;
    match file with
    | None => mret FAILURE
    | Some file =>
        fwrite file content;;
        fwrite file [LF];;
        fclose file;;
        mret SUCCESS
    end.

Definition displayFile (file_name : string) : io Z :=
  file ← openFile file_name Mode_rb;
  match file with
  | None => mret FAILURE
  | Some file =>
      file_contents ← getFileContents file;
      fclose file;;
      printf (text "Contents of file:" ++ [LF] ++ printed file_contents);;
      mret SUCCESS
  end.

(** The loop of [insertLineInFile], entered with the byte that [getc] just
    returned and the bytes still to be read; its value is what the loop
    writes to the scratch file.  The loop ends when [fgetc] returns [EOF],
    that is when nothing is left to read. *)
Fixpoint insert_loop (content : list ascii) (line_number : Z)
    (current_character : ascii) (rest : list ascii) (current_line : Z)
    : list ascii :=
  let written :=
    if negb (current_line =? line_number) then [current_character]
    else
      (if negb (line_number =? 1) then [LF] else [])
        ++ content ++ [LF] in
  let current_line :=
    if negb (current_line =? line_number) then current_line
    else current_line + 1 in
  match rest with
  | [] => written
  | c :: rest' =>
      written ++
      insert_loop content line_number c rest'
        (if decide (c = LF) then current_line + 1 else current_line)
  end.

(** [current_line = 1; current_character = getc(file); while ...] *)
Definition insert_copy (content : list ascii) (line_number : Z)
    (input : list ascii) : list ascii :=
  match input with
  | [] => []
  | c :: rest => insert_loop content line_number c rest 1
  end.

(** The replacement of the source file by the scratch file, with which both
    [insertLineInFile] and [deleteLineFromFile] end, in the same words:
    [not_deleted = deleteFile(file_name);
     if (not_deleted || wrename(TEMP_FILE_NAME, file_name))
       { if (not_deleted) deleteFile(TEMP_FILE_NAME); return FAILURE; }
     return SUCCESS;] *)
Definition replace_by_scratch (file_name : string) : io Z :=
  not_deleted ← deleteFile file_name;
  if truthy not_deleted then
    deleteFile TEMP_FILE_NAME;;
    mret FAILURE
  else
    r ← wrename TEMP_FILE_NAME file_name;
    if truthy r then mret FAILURE else mret SUCCESS.

Definition insertLineInFile (file_name : string) (content : list ascii)
    (line_number : Z) : io Z :=
  file ← openFile file_name Mode_r;
  match file with
  | None => mret FAILURE
  | Some file =>
      line_count ← getNumberOfLinesInFile file;
      if (line_number >? line_count) || (line_number <? 1) then mret FAILURE
      else
        temp_file ← openFile TEMP_FILE_NAME Mode_w;
        match temp_file with
        | None => mret FAILURE
        | Some temp_file =>
            input ← stream file;
            record_call (Call_copy file temp_file);;
            fwrite temp_file (insert_copy content line_number input);;
            fclose file;;
            fclose temp_file;;
            replace_by_scratch file_name
        end
  end.

(** The loop of [showLineFromFile]; its value is what the loop prints. *)
Fixpoint show_loop (line_number : Z) (current_character : ascii)
    (rest : list ascii) (current_line : Z) : list ascii :=
  let printed_now :=
    if (current_line =? line_number)
       && negb (bool_decide (current_character = LF))
    then [current_character] else [] in
  match rest with
  | [] => printed_now
  | c :: rest' =>
      printed_now ++
      show_loop line_number c rest'
        (if decide (c = LF) then current_line + 1 else current_line)
  end.

Definition show_line (line_number : Z) (input : list ascii) : list ascii :=
  match input with
  | [] => []
  | c :: rest => show_loop line_number c rest 1
  end.

Definition showLineFromFile (file_name : string) (line_number : Z) : io Z :=
  file ← openFile file_name Mode_r;
  match file with
  | None => mret FAILURE
  | Some file =>
      invalid ← validateLineNumber file line_number;
      if truthy invalid then mret FAILURE
      else
        printf (text "Content at line " ++ decimal line_number
                 ++ text ":" ++ [LF]);;
        input ← stream file;
        printf (show_line line_number input);;
        fclose file;;
        printf [LF];;
        mret SUCCESS
  end.

(** The loop of [deleteLineFromFile]; its value is what the loop writes to
    the scratch file. *)
Fixpoint delete_loop (line_number : Z) (current_character : ascii)
    (rest : list ascii) (current_line : Z) : list ascii :=
  let written :=
    if negb (current_line =? line_number) then [current_character]
    else [] in
  match rest with
  | [] => written
  | c :: rest' =>
      written ++
      delete_loop line_number c rest'
        (if decide (c = LF) then current_line + 1 else current_line)
  end.

Definition delete_copy (line_number : Z) (input : list ascii)
    : list ascii :=
  match input with
  | [] => []
  | c :: rest => delete_loop line_number c rest 1
  end.

Definition deleteLineFromFile (file_name : string) (line_number : Z)
    : io Z :=
  file ← openFile file_name Mode_r;
  temp_file ← openFile TEMP_FILE_NAME Mode_w;
  match file with
  | None => mret FAILURE
  | Some file =>
      invalid ← validateLineNumber file line_number;
      if truthy invalid then mret FAILURE
      else
        match temp_file with
        | None => mret FAILURE
        | Some temp_file =>
            input ← stream file;
            record_call (Call_copy file temp_file);;
            fwrite temp_file (delete_copy line_number input);;
            fclose file;;
            fclose temp_file;;
            replace_by_scratch file_name
        end
  end.

(** The changelog functions.  [showChangelog] and [resetChangelog] build
    their path with the format ["changelog/%s"]; [addActionToChangelog] and
    [deleteFileFromChangelog] with ["%s/%s"] from their last argument. *)
Definition showChangelog (file_name changelog_directory : string) : io Z :=
  let changelog_file_name := getChangelogFileName file_name in
  let changelog_file_path := "changelog/" +:+ changelog_file_name in
  r ← displayFile changelog_file_path;
  if truthy r then mret FAILURE else mret SUCCESS.

Definition resetChangelog (file_name changelog_directory : string) : io Z :=
  let changelog_file_name := getChangelogFileName file_name in
  let changelog_file_path := "changelog/" +:+ changelog_file_name in
  r ← remove changelog_file_path;
  if truthy r then mret FAILURE else mret SUCCESS.

Definition action_strings : list string :=
  ["Inserted line"; "Appended line"; "Deleted line"; "Created file";
   "Read File"; "Read Line"].

Definition action_string (a : action) : string :=
  nth (Z.to_nat (action_code a)) action_strings EmptyString.

Definition addActionToChangelog (file_name : string) (a : action)
    (changelog_directory : string) : io Z :=
  let changelog_file_name := getChangelogFileName file_name in
  let path_to_changelog_file :=
    changelog_directory +:+ "/" +:+ changelog_file_name in
  changelog_file ← openFile path_to_changelog_file Mode_a;
  source_file ← openFile file_name Mode_r;
  match changelog_file, source_file with
  | Some changelog_file, Some source_file =>
      number_of_lines ← getNumberOfLinesInFile source_file;
      let changelog_string :=
        text "[" ++ text (action_string a)
          ++ text "] Number of lines after action: "
          ++ decimal number_of_lines in
      fclose changelog_file;;
      r ← appendLineToFile path_to_changelog_file changelog_string;
      if truthy r then mret FAILURE else mret SUCCESS
  | _, _ => mret FAILURE
  end.

Definition deleteFileFromChangelog (file_name changelog_directory : string)
    : io Z :=
  let changelog_file_name := getChangelogFileName file_name in
  let changelog_file_path :=
    changelog_directory +:+ "/" +:+ changelog_file_name in
  r ← deleteFile changelog_file_path;
  if truthy r then mret FAILURE else mret SUCCESS.

End Program.

(** The changelog directory [main] hands to every operation:
    [sprintf(changelog_directory, "%s/%s", cwd, CHANGELOG_NAME)]. *)
Definition main_changelog_directory (w : world) : string :=
  cwd w +:+ "/" +:+ CHANGELOG_NAME.

(** ** The rest of the program: the count on request, the input and the
    functions of the menu *)

(** The terminal: what is still to be read from [stdin], and the process. *)
Record console : Type := Console {
  stdin : list ascii;
  process : world
}.

Definition cio (A : Type) : Type := console -> A * console.

Global Instance cio_ret : MRet cio := fun A (a : A) k => (a, k).
Global Instance cio_bind : MBind cio :=
  fun A B (f : A -> cio B) (c : cio A) k => let (a, k') := c k in f a k'.

(** An operation of the process, run at the terminal. *)
Definition run {A : Type} (c : io A) : cio A :=
  fun k => let (a, w) := c (process k) in (a, Console (stdin k) w).

(** What [fgets] takes from the input when the buffer has [room] bytes
    besides the terminator: the bytes up to and with the first line-break,
    or [room] bytes, or all there is. *)
Fixpoint read_line (room : nat) (input : list ascii)
    : list ascii * list ascii :=
  match room, input with
  | O, _ => ([], input)
  | S _, [] => ([], [])
  | S room', c :: input' =>
      if decide (c = LF) then ([c], input')
      else let (line, rest) := read_line room' input' in (c :: line, rest)
  end.

(** [fgets(buffer, size, stdin)]: [None] is [NULL], returned at the end of
    the input, in which case the buffer is left as it was. *)
Definition fgets (size : Z) : cio (option (list ascii)) :=
  fun k =>
    match stdin k with
    | [] => (None, k)
    | _ :: _ =>
        let (line, rest) := read_line (Z.to_nat (size - 1)) (stdin k) in
        (Some line, Console rest (process k))
    end.

(** [strtok(buffer, "\n")], for what it leaves in the buffer: it skips the
    line-breaks the string starts with; when nothing follows them it
    returns [NULL] and leaves the string alone; otherwise it writes a NUL
    over the first line-break after them, so that the string in the buffer
    ends there. *)
Fixpoint leading_newlines (s : list ascii) : list ascii :=
  match s with
  | [] => []
  | c :: s' => if decide (c = LF) then c :: leading_newlines s' else []
  end.

Fixpoint skip_newlines (s : list ascii) : list ascii :=
  match s with
  | [] => []
  | c :: s' => if decide (c = LF) then skip_newlines s' else s
  end.

Fixpoint token (s : list ascii) : list ascii :=
  match s with
  | [] => []
  | c :: s' => if decide (c = LF) then [] else c :: token s'
  end.

Definition strtok_newline (s : list ascii) : list ascii :=
  match skip_newlines s with
  | [] => s
  | _ :: _ => leading_newlines s ++ token (skip_newlines s)
  end.

Definition MAX_FILE_NAME_SIZE : Z := 255.
Definition MAX_LINE_CONTENT_SIZE : Z := 2048.
Definition MAX_FILE_PATH_SIZE : Z := 1000.
Definition DEFAULT_INPUT_BUFFER : Z := 255.

(** [getInput(msg, input_var, var_size)], given the string [input_var]
    holds on entry; its value is the string [input_var] holds on return. *)
Definition getInput (msg : string) (input_var : list ascii) (var_size : Z)
    : cio (list ascii) :=
  run (printf (text msg));;
  line ← fgets var_size;
  let input_var :=
    match line with
    | Some line => cstring line
    | None => input_var
    end in
  mret (strtok_newline input_var).

(** The file name a buffer holds, as the file operations take it. *)
Definition name_of (buffer : list ascii) : string :=
  string_of_list_ascii buffer.

Section Menu.

Variable uninit : Z.
Variable beyond : list ascii.

(** [atoi] of the C library. *)
Variable atoi : list ascii -> Z.

Definition displayNumberOfLinesInFile (file_name : string) : io Z :=
  file ← openFile file_name Mode_r;
  match file with
  | None => mret FAILURE
  | Some file =>
      line_count ← getNumberOfLinesInFile uninit file;
      printf (text "Number of lines in '" ++ text file_name ++ text "': "
                ++ decimal line_count ++ [LF]);;
      fclose file;;
      mret SUCCESS
  end.

(** What the local arrays of the menu functions hold before [getInput]
    fills them: they are declared without initialiser, and stay as they
    are when the input is at its end. *)
Variable file_name_0 : list ascii.
Variable source_file_name_0 : list ascii.
Variable new_file_name_0 : list ascii.
Variable line_number_0 : list ascii.
Variable line_content_0 : list ascii.

Definition createFileMain (changelog_directory : string) : cio unit :=
  file_name ← getInput "Enter the name of the file you want to create: "
                 file_name_0 MAX_FILE_NAME_SIZE;
  error ← run (createFile (name_of file_name));
  if negb (truthy error) then
    run (printf (text "Successully created file '" ++ file_name
                   ++ text "'" ++ [LF]));;
    run (addActionToChangelog uninit (name_of file_name) ACTION_CREATE_FILE
           changelog_directory);;
    mret tt
  else mret tt.

Definition displayFileMain (changelog_directory : string) : cio unit :=
  file_name ←
    getInput "Enter the name of the file you want to see the contents of: "
      file_name_0 MAX_FILE_NAME_SIZE;
  error ← run (displayFile beyond (name_of file_name));
  if truthy error then
    run (printf ([LF] ++ text "[Error] Failed to display contents of '"
                   ++ file_name
                   ++ text "'. See above for more information." ++ [LF]))
  else
    run (addActionToChangelog uninit (name_of file_name) ACTION_READ_FILE
           changelog_directory);;
    mret tt.

Definition copyFileMain (changelog_directory : string) : cio unit :=
  source_file_name ←
    getInput "Enter the name of the file you want to copy: "
      source_file_name_0 MAX_FILE_NAME_SIZE;
  new_file_name ←
    getInput "Enter the name of your new file: "
      new_file_name_0 MAX_FILE_NAME_SIZE;
  error ← run (copyFile beyond (name_of source_file_name)
                 (name_of new_file_name));
  if negb (truthy error) then
    run (printf (text "Successfully copied file '" ++ source_file_name
                   ++ text "' to '" ++ new_file_name ++ text "'" ++ [LF]));;
    run (addActionToChangelog uninit (name_of new_file_name)
           ACTION_CREATE_FILE changelog_directory);;
    mret tt
  else mret tt.

Definition deleteFileMain (changelog_directory : string) : cio unit :=
  file_name ← getInput "Enter the name of the file you want to delete: "
                 file_name_0 MAX_FILE_NAME_SIZE;
  error ← run (deleteFile (name_of file_name));
  if negb (truthy error) then
    run (printf (text "Successfully deleted file '" ++ file_name
                   ++ text "'" ++ [LF]));;
    run (deleteFileFromChangelog (name_of file_name) changelog_directory);;
    mret tt
  else mret tt.

Definition appendLineMain (changelog_directory : string) : cio unit :=
  file_name ← getInput "Enter the file you want to append content to: "
                 file_name_0 MAX_FILE_NAME_SIZE;
  line_content ← getInput ("Enter the content you want to append:"
                             +:+ String LF EmptyString)
                    line_content_0 MAX_LINE_CONTENT_SIZE;
  error ← run (appendLineToFile (name_of file_name) line_content);
  if negb (truthy error) then
    run (printf (text "Sucessfully appended content to file '" ++ file_name
                   ++ text "'" ++ [LF]));;
    run (addActionToChangelog uninit (name_of file_name) ACTION_APPEND_LINE
           changelog_directory);;
    mret tt
  else mret tt.

Definition deleteLineMain (changelog_directory : string) : cio unit :=
  file_name ← getInput "Enter the file you want to delete a line from: "
                 file_name_0 MAX_FILE_NAME_SIZE;
  line_number ← getInput "Enter the line number you want to delete: "
                   line_number_0 DEFAULT_INPUT_BUFFER;
  let line_number_int := atoi line_number in
  error ← run (deleteLineFromFile uninit (name_of file_name)
                 line_number_int);
  if negb (truthy error) then
    run (printf (text "Successfully deleted line " ++ decimal line_number_int
                   ++ text " from '" ++ file_name ++ text "'" ++ [LF]));;
    run (addActionToChangelog uninit (name_of file_name) ACTION_DELETE_LINE
           changelog_directory);;
    mret tt
  else mret tt.

Definition insertLineMain (changelog_directory : string) : cio unit :=
  file_name ← getInput "Enter the file you want to insert a line into: "
                 file_name_0 MAX_FILE_NAME_SIZE;
  line_number ←
    getInput "Enter the line number you want to insert content at: "
      line_number_0 DEFAULT_INPUT_BUFFER;
  line_content ← getInput "Enter the content you want to insert: "
                    line_content_0 MAX_LINE_CONTENT_SIZE;
  let line_number_int := atoi line_number in
  error ← run (insertLineInFile uninit (name_of file_name) line_content
                 line_number_int);
  if negb (truthy error) then
    run (printf (text "Successully inserted content at line "
                   ++ decimal line_number_int ++ text " in '" ++ file_name
                   ++ text "'" ++ [LF]));;
    run (addActionToChangelog uninit (name_of file_name) ACTION_INSERT_LINE
           changelog_directory);;
    mret tt
  else mret tt.

Definition showLineMain (changelog_directory : string) : cio unit :=
  file_name ← getInput "Enter the file you want to read a line from: "
                 file_name_0 MAX_FILE_NAME_SIZE;
  line_number ←
    getInput "Ether the line number you want to read the contents at: "
      line_number_0 DEFAULT_INPUT_BUFFER;
  let line_number_int := atoi line_number in
  error ← run (showLineFromFile uninit (name_of file_name) line_number_int);
  if negb (truthy error) then
    run (addActionToChangelog uninit (name_of file_name) ACTION_READ_LINE
           changelog_directory);;
    mret tt
  else mret tt.

Definition getLinesMain (changelog_directory : string) : cio unit :=
  file_name ←
    getInput "Enter the file you want to count the number of lines from: "
      file_name_0 MAX_FILE_NAME_SIZE;
  error ← run (displayNumberOfLinesInFile (name_of file_name));
  if truthy error then
    run (printf ([LF] ++ text "[Error] Failed to count lines in '"
                   ++ file_name
                   ++ text "'. See above for more information." ++ [LF]))
  else
    run (addActionToChangelog uninit (name_of file_name) ACTION_READ_FILE
           changelog_directory);;
    mret tt.

Definition resetChangelogMain (changelog_directory : string) : cio unit :=
  file_name ←
    getInput "Enter the file that you want to reset the changelog of: "
      file_name_0 MAX_FILE_NAME_SIZE;
  error ← run (resetChangelog (name_of file_name) changelog_directory);
  if negb (truthy error) then
    run (printf (text "Successfully reset changelog for '" ++ file_name
                   ++ text "'" ++ [LF]))
  else mret tt.

Definition showChangelogMain (changelog_directory : string) : cio unit :=
  file_name ← getInput "Enter the file you want to see the changelog of: "
                 file_name_0 MAX_FILE_NAME_SIZE;
  run (showChangelog beyond (name_of file_name) changelog_directory);;
  mret tt.

End Menu.

(** * Properties *)

(** ** Vocabulary of the specification *)

(** The number of line-break characters of a content, which is what the
    specification calls its line count. *)
Definition line_breaks (content : list ascii) : Z :=
  Z.of_nat (length (filter (fun c => c = LF) content)).

(** The audit line of the changelog:
    ["[<ActionLabel>] Number of lines after action: <N>"]. *)
Definition audit_line (label : string) (n : Z) : list ascii :=
  text "[" ++ text label ++ text "] Number of lines after action: "
    ++ decimal n.

(** A text given by its lines, each followed by its line-break. *)
Definition lines (ls : list string) : list ascii :=
  concat (map (fun l => text l ++ [LF]) ls).

(** A process started in [directory] over the given files, with nothing
    printed and no call made yet. *)
Definition disk (directory : string) (fs : list (string * list ascii))
    : world :=
  World directory (list_to_map fs) [] [].

(** A line as it is typed at a prompt, without its line-break: not empty,
    free of line-breaks and NUL bytes, and short enough to fit a buffer of
    [size] bytes with its line-break and the terminator. *)
Definition typed_line (size : Z) (line : list ascii) : bool :=
  match line with
  | [] => false
  | _ :: _ =>
      bool_decide (LF ∉ line) && bool_decide (NUL ∉ line)
      && (Z.of_nat (length line) + 2 <=? size)
  end.

(** The changelog functions build the name of a record in a buffer of
    [MAX_FILE_NAME_SIZE] bytes and its path in one of [MAX_FILE_PATH_SIZE]
    bytes, without checking either: a file name fits when the name, the ten
    characters of [".changelog"] and the terminator do, and when the
    directory, the ["/"], the name of the record and the terminator do. *)
Definition fits_changelog (changelog_directory : string)
    (file_name : list ascii) : bool :=
  (Z.of_nat (length file_name) + 11 <=? MAX_FILE_NAME_SIZE)
  && (Z.of_nat (String.length changelog_directory)
      + Z.of_nat (length file_name) + 12 <=? MAX_FILE_PATH_SIZE).

(** ** Tactics *)

(** Unfold the program and the library down to the lookups in the map of
    files, leaving the map operations alone. *)
Ltac io_run :=
  cbv beta iota zeta delta
    [fileExists openFile createFile deleteFile wrename getNumberOfLinesInFile
     validateLineNumber getFileContents copyFile appendLineToFile displayFile
     replace_by_scratch insertLineInFile showLineFromFile deleteLineFromFile
     showChangelog resetChangelog addActionToChangelog deleteFileFromChangelog
     access fopen fclose stream fwrite remove rename record_call printf
     set_files is_file truthy mbind io_bind mret io_ret SUCCESS FAILURE
     cwd files stdout calls fst snd Z.eqb negb from_option id].

Ltac io_lookup :=
  match goal with
  | H : ?m !! ?k = _ |- context [?m !! ?k] => rewrite H
  | |- context [<[?k := _]> _ !! ?k] => rewrite lookup_insert_eq
  | |- context [delete ?k _ !! ?k] => rewrite lookup_delete_eq
  | |- context [alter _ ?k _ !! ?k] => rewrite lookup_alter_eq
  | |- context [<[_ := _]> _ !! _] => rewrite lookup_insert_ne by done
  | |- context [delete _ _ !! _] => rewrite lookup_delete_ne by done
  | |- context [alter _ _ _ !! _] => rewrite lookup_alter_ne by done
  end.

Ltac io_steps := io_run; repeat (io_lookup; io_run).

(** Equality of two maps of files, path by path. *)
Ltac same_files :=
  apply map_eq; intros ?;
  repeat
    match goal with
    | |- context [<[?k := _]> _ !! ?k] => rewrite lookup_insert_eq
    | |- context [delete ?k _ !! ?k] => rewrite lookup_delete_eq
    | |- context [alter _ ?k _ !! ?k] => rewrite lookup_alter_eq
    | H : ?m !! ?k = _ |- context [?m !! ?k] => rewrite H
    | |- context [<[?k := _]> _ !! ?i] =>
        rewrite !(lookup_insert_ne _ k i) by done
    | |- context [delete ?k _ !! ?i] =>
        rewrite !(lookup_delete_ne _ k i) by done
    | |- context [alter _ ?k _ !! ?i] =>
        rewrite !(lookup_alter_ne _ _ k i) by done
    | |- context [<[?k := _]> _ !! ?i] =>
        is_var i; destruct (decide (k = i)) as [<-|]
    | |- context [delete ?k _ !! ?i] =>
        is_var i; destruct (decide (k = i)) as [<-|]
    | |- context [alter _ ?k _ !! ?i] =>
        is_var i; destruct (decide (k = i)) as [<-|]
    end;
  cbn [fmap option_fmap option_map]; try done.

(** The same for the functions of the menu, down to the operations of the
    process. *)
Ltac menu_run :=
  cbv beta iota zeta delta
    [createFileMain displayFileMain copyFileMain deleteFileMain
     appendLineMain deleteLineMain insertLineMain showLineMain getLinesMain
     resetChangelogMain showChangelogMain getInput run fgets printf
     mbind cio_bind mret cio_ret stdin process fst snd
     cwd files stdout calls].

(** ** Strings and numbers *)

Lemma append_String c (s t : string) : String c s +:+ t = String c (s +:+ t).
Proof. reflexivity. Qed.

Lemma append_assoc (s1 s2 s3 : string) :
  (s1 +:+ s2) +:+ s3 = s1 +:+ s2 +:+ s3.
Proof.
  induction s1 as [|c s1 IH]; [done|]. by rewrite !append_String, IH.
Qed.

Lemma is_absolute_append s1 s2 :
  is_absolute s1 = true -> is_absolute (s1 +:+ s2) = true.
Proof. by destruct s1 as [|c s1]. Qed.

Lemma text_append s1 s2 : text (s1 +:+ s2) = text s1 ++ text s2.
Proof.
  induction s1 as [|c s1 IH]; [done|].
  rewrite append_String. unfold text in *. simpl. by rewrite IH.
Qed.

Lemma pretty_N_go_no_LF x s : LF ∉ text s -> LF ∉ text (pretty_N_go x s).
Proof.
  revert s. induction (N.lt_wf_0 x) as [x _ IH]; intros s Hs.
  destruct (decide (x = 0%N)) as [->|Hx].
  - by rewrite pretty_N_go_0.
  - rewrite pretty_N_go_step by lia. apply IH.
    + apply N.div_lt; lia.
    + apply not_elem_of_cons. split; [|done].
      unfold pretty_N_char. by repeat case_match.
Qed.

Lemma decimal_no_LF n : LF ∉ decimal n.
Proof.
  assert (forall x : N, LF ∉ text (pretty x)) as HN.
  { intros x. unfold pretty, pretty_N. case_decide.
    - apply not_elem_of_cons. split; [done|apply not_elem_of_nil].
    - apply pretty_N_go_no_LF, not_elem_of_nil. }
  unfold decimal, pretty, pretty_Z. destruct n as [|p|p].
  - apply not_elem_of_cons. split; [done|apply not_elem_of_nil].
  - apply HN.
  - rewrite text_append. apply not_elem_of_app. split; [|apply HN].
    apply not_elem_of_cons. split; [done|apply not_elem_of_nil].
Qed.

Lemma in_range n k : 1 <= n <= k -> (n >? k) || (n <? 1) = false.
Proof. destruct (Z.gtb_spec n k), (Z.ltb_spec n 1); simpl; done || lia. Qed.

Lemma out_of_range n k : n < 1 \/ k < n -> (n >? k) || (n <? 1) = true.
Proof. destruct (Z.gtb_spec n k), (Z.ltb_spec n 1); simpl; done || lia. Qed.

(** ** Line counting *)

Lemma line_breaks_nil : line_breaks [] = 0.
Proof. reflexivity. Qed.

Lemma line_breaks_cons c s :
  line_breaks (c :: s) = (if decide (c = LF) then 1 else 0) + line_breaks s.
Proof.
  unfold line_breaks. rewrite filter_cons.
  destruct (decide (c = LF)); simpl length; lia.
Qed.

Lemma line_breaks_app s t :
  line_breaks (s ++ t) = line_breaks s + line_breaks t.
Proof. unfold line_breaks. rewrite filter_app, length_app. lia. Qed.

Lemma line_breaks_nonneg s : 0 <= line_breaks s.
Proof. unfold line_breaks. lia. Qed.

(** A content without line-break has no line, however long it is; and what
    follows the last line-break is not counted. *)
Lemma line_breaks_none s : LF ∉ s -> line_breaks s = 0.
Proof.
  induction s as [|c s IH]; intros Hs; [done|].
  rewrite line_breaks_cons. apply not_elem_of_cons in Hs as [Hc Hs].
  destruct (decide (c = LF)); [congruence|]. rewrite IH by done. lia.
Qed.

Lemma line_breaks_unterminated s t :
  LF ∉ t -> line_breaks (s ++ t) = line_breaks s.
Proof. intros. rewrite line_breaks_app, (line_breaks_none t) by done. lia. Qed.

Lemma int_of_char_not_EOF c : (int_of_char c =? EOF) = false.
Proof. apply Z.eqb_neq. unfold int_of_char, EOF. lia. Qed.

Lemma int_of_char_LF c :
  (int_of_char c =? int_of_char LF) = bool_decide (c = LF).
Proof.
  case_bool_decide as Hc.
  - subst. apply Z.eqb_refl.
  - apply Z.eqb_neq. intros H. apply Hc.
    unfold int_of_char in H. apply N2Z.inj in H.
    rewrite <- (ascii_N_embedding c), <- (ascii_N_embedding LF). by f_equal.
Qed.

(** Once the loop of [getNumberOfLinesInFile] is entered, it counts the
    line-breaks of what is left to read. *)
Lemma lines_loop_entered u s k :
  u <> EOF -> lines_loop u s k = k + line_breaks s.
Proof.
  revert u k. induction s as [|c s IH]; intros u k Hu; simpl.
  - apply Z.eqb_neq in Hu. rewrite Hu, line_breaks_nil. lia.
  - apply Z.eqb_neq in Hu. rewrite Hu.
    rewrite IH by (apply Z.eqb_neq, int_of_char_not_EOF).
    rewrite int_of_char_LF, line_breaks_cons.
    case_bool_decide; destruct (decide (c = LF)); try done; lia.
Qed.

(** When [current_character] happens to hold [EOF] on entry, the loop is
    not entered at all. *)
Lemma lines_loop_skipped s k : lines_loop EOF s k = k.
Proof. by destruct s. Qed.

Lemma lines_loop_bounds u s : 0 <= lines_loop u s 0 <= line_breaks s.
Proof.
  pose proof (line_breaks_nonneg s).
  destruct (decide (u = EOF)) as [->|Hu].
  - rewrite lines_loop_skipped. lia.
  - rewrite lines_loop_entered by done. lia.
Qed.

(** ** The copy loops

    In these lemmas the content read is cut at the line-breaks that matter:
    [c] is its first byte, [pre] holds no more and no less than [n - 2]
    line-breaks, and [mid] holds none.  When [c] is not a line-break,
    [c :: pre ++ [LF]] is lines 1 to [n - 1], [mid] is line [n]. *)

Lemma insert_loop_after X n c rest L :
  n < L -> insert_loop X n c rest L = c :: rest.
Proof.
  revert c L. induction rest as [|c' rest IH]; intros c L HL; simpl;
    replace (L =? n) with false by (symmetry; apply Z.eqb_neq; lia); simpl.
  - done.
  - rewrite IH; [done|]. destruct (decide (c' = LF)); lia.
Qed.

Lemma insert_loop_at X n c rest :
  insert_loop X n c rest n
  = (if negb (n =? 1) then [LF] else []) ++ X ++ LF :: rest.
Proof.
  destruct rest as [|c' rest]; simpl; rewrite Z.eqb_refl; simpl.
  - done.
  - rewrite insert_loop_after by (destruct (decide (c' = LF)); lia).
    by rewrite <- !app_assoc.
Qed.

Lemma insert_loop_before X n c pre post L :
  1 <= L < n -> line_breaks pre = n - L - 1 ->
  insert_loop X n c (pre ++ LF :: post) L
  = c :: pre ++ LF :: X ++ LF :: post.
Proof.
  revert c L. induction pre as [|a pre IH]; intros c L HL Hpre; simpl;
    replace (L =? n) with false by (symmetry; apply Z.eqb_neq; lia); simpl.
  - rewrite line_breaks_nil in Hpre.
    destruct (decide (LF = LF)) as [_|]; [|done].
    replace (L + 1) with n by lia. rewrite insert_loop_at.
    replace (n =? 1) with false by (symmetry; apply Z.eqb_neq; lia). done.
  - rewrite line_breaks_cons in Hpre. pose proof (line_breaks_nonneg pre).
    f_equal. destruct (decide (a = LF)); apply IH; lia.
Qed.

Lemma insert_copy_first X c rest :
  insert_copy X 1 (c :: rest) = X ++ LF :: rest.
Proof. unfold insert_copy. by rewrite insert_loop_at. Qed.

Lemma insert_copy_middle X n c pre post :
  2 <= n -> line_breaks pre = n - 2 ->
  insert_copy X n (c :: pre ++ LF :: post)
  = c :: pre ++ LF :: X ++ LF :: post.
Proof. intros. unfold insert_copy. apply insert_loop_before; lia. Qed.

Lemma delete_loop_after n c rest L :
  n < L -> delete_loop n c rest L = c :: rest.
Proof.
  revert c L. induction rest as [|c' rest IH]; intros c L HL; simpl;
    replace (L =? n) with false by (symmetry; apply Z.eqb_neq; lia); simpl.
  - done.
  - rewrite IH; [done|]. destruct (decide (c' = LF)); lia.
Qed.

Lemma delete_loop_at n c mid post :
  LF ∉ mid -> delete_loop n c (mid ++ LF :: post) n = LF :: post.
Proof.
  revert c. induction mid as [|a mid IH]; intros c Hmid; simpl;
    rewrite Z.eqb_refl; simpl.
  - destruct (decide (LF = LF)) as [_|]; [|done].
    apply delete_loop_after. lia.
  - apply not_elem_of_cons in Hmid as [Ha Hmid].
    destruct (decide (a = LF)); [congruence|]. by apply IH.
Qed.

Lemma delete_loop_before n c pre mid post L :
  1 <= L < n -> line_breaks pre = n - L - 1 -> LF ∉ mid ->
  delete_loop n c (pre ++ LF :: mid ++ LF :: post) L = c :: pre ++ LF :: post.
Proof.
  revert c L. induction pre as [|a pre IH]; intros c L HL Hpre Hmid; simpl;
    replace (L =? n) with false by (symmetry; apply Z.eqb_neq; lia); simpl.
  - rewrite line_breaks_nil in Hpre.
    destruct (decide (LF = LF)) as [_|]; [|done].
    replace (L + 1) with n by lia. by rewrite delete_loop_at.
  - rewrite line_breaks_cons in Hpre. pose proof (line_breaks_nonneg pre).
    f_equal. destruct (decide (a = LF)); apply IH; done || lia.
Qed.

Lemma delete_copy_first c mid post :
  LF ∉ mid -> delete_copy 1 (c :: mid ++ LF :: post) = LF :: post.
Proof. intros. unfold delete_copy. by apply delete_loop_at. Qed.

Lemma delete_copy_middle n c pre mid post :
  2 <= n -> line_breaks pre = n - 2 -> LF ∉ mid ->
  delete_copy n (c :: pre ++ LF :: mid ++ LF :: post) = c :: pre ++ LF :: post.
Proof. intros. unfold delete_copy. apply delete_loop_before; done || lia. Qed.

Lemma show_loop_after n c rest L :
  n < L -> show_loop n c rest L = [].
Proof.
  revert c L. induction rest as [|c' rest IH]; intros c L HL; simpl;
    replace (L =? n) with false by (symmetry; apply Z.eqb_neq; lia); simpl.
  - done.
  - apply IH. destruct (decide (c' = LF)); lia.
Qed.

Lemma show_loop_at n c mid post :
  LF ∉ mid ->
  show_loop n c (mid ++ LF :: post) n
  = (if decide (c = LF) then [] else [c]) ++ mid.
Proof.
  revert c. induction mid as [|a mid IH]; intros c Hmid; simpl;
    rewrite Z.eqb_refl; simpl.
  - destruct (decide (LF = LF)) as [_|]; [|done].
    rewrite show_loop_after by lia.
    case_bool_decide; destruct (decide (c = LF)); done.
  - apply not_elem_of_cons in Hmid as [Ha Hmid].
    destruct (decide (a = LF)); [congruence|]. rewrite IH by done.
    destruct (decide (a = LF)); [congruence|].
    case_bool_decide; destruct (decide (c = LF)); done.
Qed.

Lemma show_loop_before n c pre mid post L :
  1 <= L < n -> line_breaks pre = n - L - 1 -> LF ∉ mid ->
  show_loop n c (pre ++ LF :: mid ++ LF :: post) L = mid.
Proof.
  revert c L. induction pre as [|a pre IH]; intros c L HL Hpre Hmid; simpl;
    replace (L =? n) with false by (symmetry; apply Z.eqb_neq; lia); simpl.
  - rewrite line_breaks_nil in Hpre.
    destruct (decide (LF = LF)) as [_|]; [|done].
    replace (L + 1) with n by lia. rewrite show_loop_at by done.
    by destruct (decide (LF = LF)).
  - rewrite line_breaks_cons in Hpre. pose proof (line_breaks_nonneg pre).
    destruct (decide (a = LF)); apply IH; done || lia.
Qed.

Lemma show_line_first c mid post :
  LF ∉ mid ->
  show_line 1 (c :: mid ++ LF :: post)
  = (if decide (c = LF) then [] else [c]) ++ mid.
Proof. intros. unfold show_line. by apply show_loop_at. Qed.

Lemma show_line_middle n c pre mid post :
  2 <= n -> line_breaks pre = n - 2 -> LF ∉ mid ->
  show_line n (c :: pre ++ LF :: mid ++ LF :: post) = mid.
Proof. intros. unfold show_line. apply show_loop_before; done || lia. Qed.

(** ** The audit line *)

Lemma action_string_listed a : In (action_string a) action_strings.
Proof. destruct a; simpl; tauto. Qed.

Lemma audit_line_no_LF a n : LF ∉ audit_line (action_string a) n.
Proof.
  unfold audit_line. rewrite !not_elem_of_app. split_and!.
  - by apply not_elem_of_cons; split; [|apply not_elem_of_nil].
  - destruct a; vm_compute; intros H;
      repeat (apply elem_of_cons in H as [H|H]; [discriminate|]);
      by apply elem_of_nil in H.
  - vm_compute; intros H;
      repeat (apply elem_of_cons in H as [H|H]; [discriminate|]);
      by apply elem_of_nil in H.
  - apply decimal_no_LF.
Qed.

(** ** What each operation does to the process state

    One equation per operation and per way through it, from a state with
    working directory [d], files [m], output [out] and calls [cs]. *)

Section Runs.
Context (uninit : Z) (beyond : list ascii).
Context (d : string) (m : gmap string (list ascii)).
Context (out : list ascii) (cs : list call).

Lemma getNumberOfLinesInFile_run p :
  getNumberOfLinesInFile uninit p (World d m out cs)
  = (lines_loop uninit (default [] (m !! p)) 0,
     World d m out (cs ++ [Call_scan p])).
Proof. reflexivity. Qed.

Lemma insertLineInFile_missing f X n :
  m !! resolve d f = None ->
  insertLineInFile uninit f X n (World d m out cs)
  = (FAILURE, World d m out (cs ++ [Call_fopen (resolve d f) Mode_r])).
Proof. intros Hs. by io_steps. Qed.

Lemma insertLineInFile_rejects f X n s :
  m !! resolve d f = Some s ->
  n < 1 \/ lines_loop uninit s 0 < n ->
  insertLineInFile uninit f X n (World d m out cs)
  = (FAILURE,
     World d m out
       (cs ++ [Call_fopen (resolve d f) Mode_r; Call_scan (resolve d f)])).
Proof.
  intros Hs Hn. io_steps.
  rewrite (out_of_range n (lines_loop uninit s 0)) by done.
  by rewrite <- app_assoc.
Qed.

Lemma insertLineInFile_runs f X n s :
  let p := resolve d f in
  let tmp := resolve d TEMP_FILE_NAME in
  m !! p = Some s -> p <> tmp ->
  1 <= n <= lines_loop uninit s 0 ->
  insertLineInFile uninit f X n (World d m out cs)
  = (SUCCESS,
     World d (<[p := insert_copy X n s]> (delete tmp m)) out
       (cs ++ [Call_fopen p Mode_r; Call_scan p; Call_fopen tmp Mode_w;
               Call_copy p tmp; Call_fclose p; Call_fclose tmp;
               Call_remove p; Call_rename tmp p])).
Proof.
  intros p tmp Hs Hne Hn. subst p tmp. io_steps.
  rewrite (in_range n (lines_loop uninit s 0)) by done. io_steps.
  simpl. f_equal. f_equal; [same_files|by rewrite <- !app_assoc].
Qed.

Lemma deleteLineFromFile_missing f n :
  m !! resolve d f = None ->
  deleteLineFromFile uninit f n (World d m out cs)
  = (FAILURE,
     World d (<[resolve d TEMP_FILE_NAME := []]> m) out
       (cs ++ [Call_fopen (resolve d f) Mode_r;
               Call_fopen (resolve d TEMP_FILE_NAME) Mode_w])).
Proof. intros Hs. io_steps. by rewrite <- app_assoc. Qed.

Lemma deleteLineFromFile_rejects f n s :
  m !! resolve d f = Some s ->
  n < 1 \/ line_breaks s < n ->
  deleteLineFromFile uninit f n (World d m out cs)
  = (FAILURE,
     World d (<[resolve d TEMP_FILE_NAME := []]> m) out
       (cs ++ [Call_fopen (resolve d f) Mode_r;
               Call_fopen (resolve d TEMP_FILE_NAME) Mode_w;
               Call_scan (resolve d f)])).
Proof.
  intros Hs Hn. io_run. rewrite Hs. io_run.
  set (k := lines_loop uninit _ 0).
  assert (n < 1 \/ k < n) as Hk.
  { subst k.
    destruct (decide (resolve d TEMP_FILE_NAME = resolve d f)) as [->|].
    - rewrite lookup_insert_eq. io_run.
      pose proof (lines_loop_bounds uninit []) as Hb.
      rewrite line_breaks_nil in Hb. lia.
    - rewrite lookup_insert_ne, Hs by done. io_run.
      pose proof (lines_loop_bounds uninit s). lia. }
  rewrite (out_of_range n k) by done. io_run.
  by rewrite <- !app_assoc.
Qed.

Lemma deleteLineFromFile_runs f n s :
  let p := resolve d f in
  let tmp := resolve d TEMP_FILE_NAME in
  m !! p = Some s -> p <> tmp ->
  1 <= n <= lines_loop uninit s 0 ->
  deleteLineFromFile uninit f n (World d m out cs)
  = (SUCCESS,
     World d (<[p := delete_copy n s]> (delete tmp m)) out
       (cs ++ [Call_fopen p Mode_r; Call_fopen tmp Mode_w; Call_scan p;
               Call_copy p tmp; Call_fclose p; Call_fclose tmp;
               Call_remove p; Call_rename tmp p])).
Proof.
  intros p tmp Hs Hne Hn. subst p tmp. io_steps.
  rewrite (in_range n (lines_loop uninit s 0)) by done. io_steps.
  simpl. f_equal. f_equal; [same_files|by rewrite <- !app_assoc].
Qed.

Lemma showLineFromFile_missing f n :
  m !! resolve d f = None ->
  showLineFromFile uninit f n (World d m out cs)
  = (FAILURE, World d m out (cs ++ [Call_fopen (resolve d f) Mode_r])).
Proof. intros Hs. by io_steps. Qed.

Lemma showLineFromFile_rejects f n s :
  m !! resolve d f = Some s ->
  n < 1 \/ lines_loop uninit s 0 < n ->
  showLineFromFile uninit f n (World d m out cs)
  = (FAILURE,
     World d m out
       (cs ++ [Call_fopen (resolve d f) Mode_r; Call_scan (resolve d f)])).
Proof.
  intros Hs Hn. io_steps.
  rewrite (out_of_range n (lines_loop uninit s 0)) by done. io_run.
  by rewrite <- app_assoc.
Qed.

Lemma showLineFromFile_runs f n s :
  let p := resolve d f in
  m !! p = Some s ->
  1 <= n <= lines_loop uninit s 0 ->
  showLineFromFile uninit f n (World d m out cs)
  = (SUCCESS,
     World d m
       (out ++ text "Content at line " ++ decimal n ++ text ":" ++ [LF]
            ++ show_line n s ++ [LF])
       (cs ++ [Call_fopen p Mode_r; Call_scan p; Call_fclose p])).
Proof.
  intros p Hs Hn. subst p. io_steps.
  rewrite (in_range n (lines_loop uninit s 0)) by done. io_steps.
  f_equal. f_equal; by rewrite <- !app_assoc.
Qed.

Lemma appendLineToFile_run f content :
  let p := resolve d f in
  appendLineToFile f content (World d m out cs)
  = match m !! p with
    | Some s =>
        (SUCCESS,
         World d (<[p := s ++ content ++ [LF]]> m) out
           (cs ++ [Call_fopen p Mode_a; Call_fclose p]))
    | None => (FAILURE, World d m out cs)
    end.
Proof.
  intros p. subst p. destruct (m !! resolve d f) as [s|] eqn:Hs; io_steps.
  - f_equal. f_equal; [|by rewrite <- !app_assoc].
    same_files. by rewrite <- app_assoc.
  - done.
Qed.

Lemma displayFile_run f :
  let p := resolve d f in
  displayFile beyond f (World d m out cs)
  = match m !! p with
    | Some s =>
        (SUCCESS,
         World d m (out ++ text "Contents of file:" ++ [LF] ++ printed beyond s)
           (cs ++ [Call_fopen p Mode_rb; Call_fclose p]))
    | None => (FAILURE, World d m out (cs ++ [Call_fopen p Mode_rb]))
    end.
Proof.
  intros p. subst p. destruct (m !! resolve d f) as [s|] eqn:Hs; io_steps.
  - f_equal. f_equal. by rewrite <- !app_assoc.
  - done.
Qed.

Lemma copyFile_run source new :
  let p := resolve d source in
  let q := resolve d new in
  copyFile beyond source new (World d m out cs)
  = match m !! q, m !! p with
    | Some _, _ => (FAILURE, World d m out cs)
    | None, None => (FAILURE, World d m out (cs ++ [Call_fopen p Mode_r]))
    | None, Some s =>
        (SUCCESS,
         World d (<[q := printed beyond s]> m) out
           (cs ++ [Call_fopen p Mode_r; Call_fopen q Mode_a; Call_fclose q;
                   Call_fopen q Mode_w; Call_fclose q]))
    end.
Proof.
  intros p q. subst p q.
  destruct (m !! resolve d new) as [t|] eqn:Hq; [by io_steps|].
  destruct (m !! resolve d source) as [s|] eqn:Hp; [|by io_steps].
  assert (resolve d new <> resolve d source) by congruence.
  io_steps. f_equal. f_equal; [|by rewrite <- !app_assoc]. same_files.
Qed.

Lemma resetChangelog_run f dir :
  let record := resolve d ("changelog/" +:+ getChangelogFileName f) in
  resetChangelog f dir (World d m out cs)
  = match m !! record with
    | Some _ =>
        (SUCCESS, World d (delete record m) out (cs ++ [Call_remove record]))
    | None => (FAILURE, World d m out (cs ++ [Call_remove record]))
    end.
Proof.
  intros record. subst record.
  destruct (m !! resolve d _) as [s|] eqn:Hs; by io_steps.
Qed.

Lemma showChangelog_run f dir :
  let record := resolve d ("changelog/" +:+ getChangelogFileName f) in
  showChangelog beyond f dir (World d m out cs)
  = match m !! record with
    | Some s =>
        (SUCCESS,
         World d m (out ++ text "Contents of file:" ++ [LF] ++ printed beyond s)
           (cs ++ [Call_fopen record Mode_rb; Call_fclose record]))
    | None => (FAILURE, World d m out (cs ++ [Call_fopen record Mode_rb]))
    end.
Proof.
  intros record. subst record. unfold showChangelog.
  cbv beta iota zeta delta [mbind io_bind]. rewrite displayFile_run.
  destruct (m !! resolve d _) as [s|] eqn:Hs; by io_run.
Qed.

Lemma addActionToChangelog_run f a dir :
  let record := resolve d (dir +:+ "/" +:+ getChangelogFileName f) in
  let target := resolve d f in
  let m1 :=
    match m !! record with Some _ => m | None => <[record := []]> m end in
  addActionToChangelog uninit f a dir (World d m out cs)
  = match m1 !! target with
    | Some s =>
        (SUCCESS,
         World d
           (<[record := default [] (m !! record)
                ++ audit_line (action_string a) (lines_loop uninit s 0)
                ++ [LF]]> m)
           out
           (cs ++ [Call_fopen record Mode_a; Call_fopen target Mode_r;
                   Call_scan target; Call_fclose record;
                   Call_fopen record Mode_a; Call_fclose record]))
    | None =>
        (FAILURE,
         World d m1 out
           (cs ++ [Call_fopen record Mode_a; Call_fopen target Mode_r]))
    end.
Proof.
  intros record target m1. subst record target m1.
  set (record := resolve d (dir +:+ "/" +:+ getChangelogFileName f)).
  destruct (m !! record) as [r|] eqn:Hr.
  - destruct (m !! resolve d f) as [s|] eqn:Ht; subst record; io_steps.
    + f_equal. f_equal; [|by rewrite <- !app_assoc].
      unfold audit_line. same_files; try by rewrite <- app_assoc.
    + by rewrite <- !app_assoc.
  - destruct (decide (record = resolve d f)) as [e|ne].
    + rewrite <- e, lookup_insert_eq. subst record. io_steps.
      repeat (rewrite <- e; io_steps).
      f_equal. f_equal; [|by rewrite <- !app_assoc].
      unfold audit_line. same_files; try by rewrite <- app_assoc.
    + rewrite lookup_insert_ne by done.
      destruct (m !! resolve d f) as [s|] eqn:Ht; subst record; io_steps.
      * f_equal. f_equal; [|by rewrite <- !app_assoc].
        unfold audit_line. same_files; try by rewrite <- app_assoc.
      * by rewrite <- !app_assoc.
Qed.

End Runs.

(** ** Editing at line 2 and below

    From line 2 on, and on a file that does not start with a line-break,
    the two rewrite operations and [showLineFromFile] agree on what line
    [n] is. *)

Section Editing.
Context (u : Z) (d : string) (m : gmap string (list ascii)).
Context (out : list ascii) (cs : list call).
Context (f : string) (n : Z) (c : ascii) (pre post : list ascii).

Hypothesis scratch_apart : resolve d f <> resolve d TEMP_FILE_NAME.
Hypothesis below_first : 2 <= n.
Hypothesis lines_before : line_breaks pre = n - 2.

Lemma insertLineInFile_line_n X :
  m !! resolve d f = Some (c :: pre ++ LF :: post) ->
  n <= lines_loop u (c :: pre ++ LF :: post) 0 ->
  fst (insertLineInFile u f X n (World d m out cs)) = SUCCESS
  /\ files (snd (insertLineInFile u f X n (World d m out cs)))
     = <[resolve d f := c :: pre ++ LF :: X ++ LF :: post]>
         (delete (resolve d TEMP_FILE_NAME) m).
Proof.
  intros Hs Hn.
  rewrite (insertLineInFile_runs _ _ _ _ _ _ _ _ _ Hs) by (done || lia).
  by rewrite insert_copy_middle.
Qed.

Lemma deleteLineFromFile_line_n mid :
  LF ∉ mid ->
  m !! resolve d f = Some (c :: pre ++ LF :: mid ++ LF :: post) ->
  n <= lines_loop u (c :: pre ++ LF :: mid ++ LF :: post) 0 ->
  fst (deleteLineFromFile u f n (World d m out cs)) = SUCCESS
  /\ files (snd (deleteLineFromFile u f n (World d m out cs)))
     = <[resolve d f := c :: pre ++ LF :: post]>
         (delete (resolve d TEMP_FILE_NAME) m).
Proof.
  intros Hmid Hs Hn.
  rewrite (deleteLineFromFile_runs _ _ _ _ _ _ _ _ Hs) by (done || lia).
  by rewrite delete_copy_middle.
Qed.

Lemma showLineFromFile_line_n mid :
  LF ∉ mid ->
  m !! resolve d f = Some (c :: pre ++ LF :: mid ++ LF :: post) ->
  n <= lines_loop u (c :: pre ++ LF :: mid ++ LF :: post) 0 ->
  fst (showLineFromFile u f n (World d m out cs)) = SUCCESS
  /\ stdout (snd (showLineFromFile u f n (World d m out cs)))
     = out ++ text "Content at line " ++ decimal n ++ text ":" ++ [LF]
           ++ mid ++ [LF].
Proof.
  intros Hmid Hs Hn.
  rewrite (showLineFromFile_runs _ _ _ _ _ _ _ _ Hs) by lia.
  by rewrite show_line_middle.
Qed.

End Editing.

Section Editing_twice.
Context (u u' : Z) (d : string) (m : gmap string (list ascii)).
Context (out : list ascii) (cs : list call).
Context (f : string) (n : Z) (c : ascii) (pre post X : list ascii).

Hypothesis scratch_apart : resolve d f <> resolve d TEMP_FILE_NAME.
Hypothesis below_first : 2 <= n.
Hypothesis lines_before : line_breaks pre = n - 2.
Hypothesis one_line : LF ∉ X.
Hypothesis loop_entered : u' <> EOF.
Hypothesis content : m !! resolve d f = Some (c :: pre ++ LF :: post).
Hypothesis valid : n <= lines_loop u (c :: pre ++ LF :: post) 0.

(** The line count the second operation finds after the insertion. *)
Lemma inserted_line_count :
  1 <= n <= lines_loop u' (c :: pre ++ LF :: X ++ LF :: post) 0.
Proof.
  rewrite lines_loop_entered by done.
  rewrite line_breaks_cons, !line_breaks_app, line_breaks_cons,
    line_breaks_app, line_breaks_cons.
  pose proof (line_breaks_nonneg X). pose proof (line_breaks_nonneg post).
  destruct (decide (c = LF)); destruct (decide (LF = LF)); try done; lia.
Qed.

(** Inserting a line at [n] and showing line [n] prints the new line. *)
Lemma insert_then_show_line_n :
  stdout (snd (showLineFromFile u' f n
                 (snd (insertLineInFile u f X n (World d m out cs)))))
  = out ++ text "Content at line " ++ decimal n ++ text ":" ++ [LF]
        ++ X ++ [LF].
Proof.
  rewrite (insertLineInFile_runs _ _ _ _ _ _ _ _ _ content) by (done || lia).
  rewrite insert_copy_middle by done. cbn [snd].
  rewrite (showLineFromFile_runs u' d _ out _ f n
             (c :: pre ++ LF :: X ++ LF :: post))
    by (apply lookup_insert_eq || apply inserted_line_count).
  by rewrite show_line_middle.
Qed.

(** Inserting a line at [n] and deleting line [n] gives the file back; of
    the scratch file nothing is left. *)
Lemma insert_then_delete_line_n :
  files (snd (deleteLineFromFile u' f n
                (snd (insertLineInFile u f X n (World d m out cs)))))
  = delete (resolve d TEMP_FILE_NAME) m.
Proof.
  rewrite (insertLineInFile_runs _ _ _ _ _ _ _ _ _ content) by (done || lia).
  rewrite insert_copy_middle by done. cbn [snd].
  rewrite (deleteLineFromFile_runs u' d _ out _ f n
             (c :: pre ++ LF :: X ++ LF :: post))
    by (done || apply lookup_insert_eq || apply inserted_line_count).
  rewrite delete_copy_middle by done. cbn [snd files]. same_files.
Qed.

End Editing_twice.

(** ** Editing at line 1

    At line 1 both rewrite loops are off by one byte: [insertLineInFile]
    writes the new line in place of the first byte of the file, and
    [deleteLineFromFile] leaves the line-break of the line it deletes. *)

Section First_line.
Context (u : Z) (d : string) (m : gmap string (list ascii)).
Context (out : list ascii) (cs : list call) (f : string).

Hypothesis scratch_apart : resolve d f <> resolve d TEMP_FILE_NAME.

Lemma insertLineInFile_line_1 X c rest :
  m !! resolve d f = Some (c :: rest) ->
  1 <= lines_loop u (c :: rest) 0 ->
  files (snd (insertLineInFile u f X 1 (World d m out cs)))
  = <[resolve d f := X ++ LF :: rest]> (delete (resolve d TEMP_FILE_NAME) m).
Proof.
  intros Hs Hn.
  rewrite (insertLineInFile_runs _ _ _ _ _ _ _ _ _ Hs) by (done || lia).
  by rewrite insert_copy_first.
Qed.

Lemma deleteLineFromFile_line_1 c mid post :
  LF ∉ mid ->
  m !! resolve d f = Some (c :: mid ++ LF :: post) ->
  1 <= lines_loop u (c :: mid ++ LF :: post) 0 ->
  files (snd (deleteLineFromFile u f 1 (World d m out cs)))
  = <[resolve d f := LF :: post]> (delete (resolve d TEMP_FILE_NAME) m).
Proof.
  intros Hmid Hs Hn.
  rewrite (deleteLineFromFile_runs _ _ _ _ _ _ _ _ Hs) by (done || lia).
  by rewrite delete_copy_first.
Qed.

End First_line.

(** ** Copying *)

(** Where nothing of the source is a NUL and a NUL happens to follow the
    buffer, ["%s"] prints the source byte for byte. *)
Lemma cstring_terminated s rest : NUL ∉ s -> cstring (s ++ NUL :: rest) = s.
Proof.
  induction s as [|c s IH]; intros Hs; simpl.
  - by destruct (decide (NUL = NUL)).
  - apply not_elem_of_cons in Hs as [Hc Hs].
    destruct (decide (c = NUL)); [congruence|]. by rewrite IH.
Qed.

Lemma copyFile_text d m out cs source new s rest :
  m !! resolve d new = None ->
  m !! resolve d source = Some s ->
  NUL ∉ s ->
  copyFile (NUL :: rest) source new (World d m out cs)
  = (SUCCESS,
     World d (<[resolve d new := s]> m) out
       (cs ++ [Call_fopen (resolve d source) Mode_r;
               Call_fopen (resolve d new) Mode_a;
               Call_fclose (resolve d new);
               Call_fopen (resolve d new) Mode_w;
               Call_fclose (resolve d new)])).
Proof.
  intros Hq Hp Hs. rewrite copyFile_run, Hq, Hp.
  unfold printed. by rewrite cstring_terminated.
Qed.

(** * The statements of the specification *)

(** C1. On a file whose content has at least [n] line-breaks and for a
    valid [n], [insertLineInFile] should put the new content on line [n],
    push the line that was there to [n + 1] and resume copying at the first
    character of that line.  At line 1 the source does not: the file
    ["a\n"] with ["X"] inserted at line 1 (a valid line number, the file has
    one line, which reads ["a"]) becomes ["X\n\n"], not ["X\na\n"]; the
    byte ["a"] is written nowhere and line 2 reads empty. *)
Theorem insertLineInFile_line_1_loses_first_byte :
  let w := disk "/home/u" [("/home/u/a.txt", lines ["a"])] in
  let r := insertLineInFile 0 "a.txt" (text "X") 1 w in
  1 <= 1 <= fst (getNumberOfLinesInFile 0 "/home/u/a.txt" w)
  /\ stdout (snd (showLineFromFile 0 "a.txt" 1 w))
     = text "Content at line 1:" ++ [LF] ++ text "a" ++ [LF]
  /\ fst r = SUCCESS
  /\ files (snd r) !! "/home/u/a.txt" = Some (lines ["X"; EmptyString])
  /\ files (snd r) !! "/home/u/a.txt" <> Some (lines ["X"; "a"])
  /\ stdout (snd (showLineFromFile 0 "a.txt" 2 (snd r)))
     = text "Content at line 2:" ++ [LF] ++ text EmptyString ++ [LF].
Proof. vm_compute. split_and!; done. Qed.

(** C2. Inserting a line at a valid [n] and deleting line [n] should give
    the file back byte for byte.  At line 1 the source does not: from
    ["a\n"], inserting ["X"] at line 1 and deleting line 1 leaves
    ["\n\n"]. *)
Theorem insert_then_delete_line_1_not_restored :
  let w := disk "/home/u" [("/home/u/a.txt", lines ["a"])] in
  let r1 := insertLineInFile 0 "a.txt" (text "X") 1 w in
  let r2 := deleteLineFromFile 0 "a.txt" 1 (snd r1) in
  1 <= 1 <= fst (getNumberOfLinesInFile 0 "/home/u/a.txt" w)
  /\ fst r1 = SUCCESS
  /\ fst r2 = SUCCESS
  /\ files (snd r2) !! "/home/u/a.txt" = Some (lines [EmptyString; EmptyString])
  /\ files (snd r2) <> files w.
Proof.
  split_and!.
  1-2: by vm_compute.
  1-3: vm_compute; reflexivity.
  intros H. apply (f_equal (fun fs => fs !! "/home/u/a.txt")) in H.
  vm_compute in H. discriminate.
Qed.

(** C3. Deleting a valid line [n] should succeed, leave one line less and
    remove the line with its line-break.  The scenario of the specification
    holds (["x\ny\nz\n"] without line 2 is ["x\nz\n"]), but at line 1 the
    source keeps the line-break of the deleted line: ["x\ny\nz\n"] without
    line 1 is ["\ny\nz\n"], which still has three lines. *)
Theorem deleteLineFromFile_line_1_keeps_line_break :
  let w := disk "/home/u" [("/home/u/a.txt", lines ["x"; "y"; "z"])] in
  let r1 := deleteLineFromFile 0 "a.txt" 1 w in
  let r2 := deleteLineFromFile 0 "a.txt" 2 w in
  fst (getNumberOfLinesInFile 0 "/home/u/a.txt" w) = 3
  /\ fst r1 = SUCCESS
  /\ files (snd r1) !! "/home/u/a.txt" = Some (lines [EmptyString; "y"; "z"])
  /\ fst (getNumberOfLinesInFile 0 "/home/u/a.txt" (snd r1)) = 3
  /\ fst r2 = SUCCESS
  /\ files (snd r2) !! "/home/u/a.txt" = Some (lines ["x"; "z"]).
Proof. vm_compute. split_and!; done. Qed.

(** C4. Both rewrite operations should open the source, validate the line
    number and only then open the scratch file, so that a failed validation
    leaves the disk as it was.  [insertLineInFile] does;
    [deleteLineFromFile] opens the scratch file for writing before it
    validates: deleting line 5 of the one-line file ["x\n"] fails and leaves
    an empty [file.tmp] that was not there before. *)
Theorem deleteLineFromFile_opens_scratch_before_validating :
  let w := disk "/home/u" [("/home/u/a.txt", lines ["x"])] in
  let r := deleteLineFromFile 0 "a.txt" 5 w in
  let r' := insertLineInFile 0 "a.txt" (text "X") 5 w in
  fst r = FAILURE
  /\ calls (snd r)
     = [Call_fopen "/home/u/a.txt" Mode_r;
        Call_fopen "/home/u/file.tmp" Mode_w;
        Call_scan "/home/u/a.txt"]
  /\ files w !! "/home/u/file.tmp" = None
  /\ files (snd r) !! "/home/u/file.tmp" = Some []
  /\ fst r' = FAILURE
  /\ calls (snd r')
     = [Call_fopen "/home/u/a.txt" Mode_r; Call_scan "/home/u/a.txt"]
  /\ files (snd r') = files w.
Proof. split_and!; vm_compute; reflexivity. Qed.

(** C5. On an existing file, [insertLineInFile], [deleteLineFromFile] and
    [showLineFromFile] fail for every line number below 1 or above the
    number of line-breaks of the file, whatever [current_character] held on
    entry of the count; the two that validate before they write leave the
    files as they were.  A file without lines therefore admits no insertion
    at all. *)
Theorem line_number_out_of_range_fails u d m out cs f content n s :
  m !! resolve d f = Some s ->
  n < 1 \/ line_breaks s < n ->
  let w := World d m out cs in
  fst (insertLineInFile u f content n w) = FAILURE
  /\ fst (deleteLineFromFile u f n w) = FAILURE
  /\ fst (showLineFromFile u f n w) = FAILURE
  /\ files (snd (insertLineInFile u f content n w)) = m
  /\ files (snd (showLineFromFile u f n w)) = m
  /\ (line_breaks s = 0 ->
      forall content' n',
        fst (insertLineInFile u f content' n' w) = FAILURE
        /\ files (snd (insertLineInFile u f content' n' w)) = m).
Proof.
  intros Hs Hn w. subst w. pose proof (lines_loop_bounds u s) as Hb.
  rewrite (insertLineInFile_rejects u d m out cs f content n s)
    by (done || lia).
  rewrite (deleteLineFromFile_rejects u d m out cs f n s) by done.
  rewrite (showLineFromFile_rejects u d m out cs f n s) by (done || lia).
  split_and!; try done.
  intros Hzero content' n'.
  by rewrite (insertLineInFile_rejects u d m out cs f content' n' s)
    by (done || lia).
Qed.

Lemma line_number_out_of_range_fails_witness :
  let w := disk "/home/u" [("/home/u/a.txt", [])] in
  fst (insertLineInFile 0 "a.txt" (text "hello") 1 w) = FAILURE
  /\ fst (deleteLineFromFile 0 "a.txt" 1 w) = FAILURE
  /\ fst (showLineFromFile 0 "a.txt" 1 w) = FAILURE.
Proof.
  destruct (line_number_out_of_range_fails 0 "/home/u"
              (list_to_map [("/home/u/a.txt", [])]) [] [] "a.txt"
              (text "hello") 1 [])
    as (Hinsert & Hdelete & Hshow & _).
  - vm_compute. reflexivity.
  - right. vm_compute. reflexivity.
  - split; [exact Hinsert|split; [exact Hdelete|exact Hshow]].
Defined.

(** C6. The line count of [getNumberOfLinesInFile] should be the number of
    line-breaks of the content, for every content.  The loop that counts is
    guarded by [current_character != EOF] while [current_character] has not
    been assigned yet: when the variable holds [EOF] on entry, the file is
    not read and the count of the one-line file ["a\n"] is 0. *)
Theorem getNumberOfLinesInFile_loop_skipped :
  let w := disk "/home/u" [("/home/u/a.txt", lines ["a"])] in
  fst (getNumberOfLinesInFile EOF "/home/u/a.txt" w) = 0
  /\ line_breaks (lines ["a"]) = 1.
Proof. split; reflexivity. Qed.

(** For every other value of the variable the count is the number of
    line-breaks. *)
Lemma getNumberOfLinesInFile_counts u d m out cs p s :
  u <> EOF -> m !! p = Some s ->
  fst (getNumberOfLinesInFile u p (World d m out cs)) = line_breaks s.
Proof.
  intros Hu Hs. rewrite getNumberOfLinesInFile_run, Hs. cbn [fst].
  rewrite lines_loop_entered by done. simpl. lia.
Qed.

(** The record [main]'s directory leads to is the one [resetChangelog]
    and [showChangelog] find by their relative path. *)
Lemma main_changelog_record d m out cs f :
  is_absolute d = true ->
  resolve d (main_changelog_directory (World d m out cs) +:+ "/"
               +:+ getChangelogFileName f)
  = resolve d ("changelog/" +:+ getChangelogFileName f).
Proof.
  intros Hd. unfold main_changelog_directory, resolve. cbn [cwd].
  rewrite (is_absolute_append (d +:+ "/" +:+ CHANGELOG_NAME))
    by (by apply is_absolute_append).
  by rewrite !append_assoc.
Qed.

(** C7. A call of [addActionToChangelog] that succeeds adds to the changelog
    record of the file, created empty when it was absent, the audit line
    ["[<ActionLabel>] Number of lines after action: <N>"] and one
    line-break, and nothing else: the label is one of the six of
    [action_strings], [N] is what [getNumberOfLinesInFile] counts in the file
    as it is on disk at that moment, and the line holds no line-break.
    With the directory [main] passes, a record that [resetChangelog] has
    just removed consists of that one line after the call. *)
Theorem addActionToChangelog_appends_one_audit_line
    u d m out cs f a dir w' :
  addActionToChangelog u f a dir (World d m out cs) = (SUCCESS, w') ->
  let record := resolve d (dir +:+ "/" +:+ getChangelogFileName f) in
  let before := default [] (m !! record) in
  let N := fst (getNumberOfLinesInFile u (resolve d f) (World d m out cs)) in
  let line := audit_line (action_string a) N in
  files w' = <[record := before ++ line ++ [LF]]> m
  /\ In (action_string a) action_strings
  /\ length action_strings = 6%nat
  /\ 0 <= N
  /\ (LF ∉ line)
  /\ line_breaks (before ++ line ++ [LF]) = line_breaks before + 1
  /\ (forall m0 out0 cs0 dir0,
        is_absolute d = true ->
        dir = main_changelog_directory (World d m0 out0 cs0) ->
        resetChangelog f dir0 (World d m0 out0 cs0)
        = (SUCCESS, World d m out cs) ->
        files w' !! record = Some (line ++ [LF])).
Proof.
  intros Hrun. cbv zeta. rewrite getNumberOfLinesInFile_run. cbn [fst].
  set (record := resolve d (dir +:+ "/" +:+ getChangelogFileName f)).
  set (line := audit_line (action_string a) _).
  assert (files w'
          = <[record := default [] (m !! record) ++ line ++ [LF]]> m)
    as Hfiles.
  { rewrite addActionToChangelog_run in Hrun. fold record in Hrun.
    subst line. destruct (m !! record) as [r|] eqn:Hr.
    - destruct (m !! resolve d f) as [s|] eqn:Ht; [|done].
      by injection Hrun as <-.
    - destruct (decide (record = resolve d f)) as [e|ne].
      + rewrite <- e, lookup_insert_eq in Hrun. rewrite <- e, Hr.
        by injection Hrun as <-.
      + rewrite lookup_insert_ne in Hrun by done.
        destruct (m !! resolve d f) as [s|] eqn:Ht; [|done].
        by injection Hrun as <-. }
  split_and!.
  - done.
  - apply action_string_listed.
  - done.
  - apply lines_loop_bounds.
  - apply audit_line_no_LF.
  - rewrite !line_breaks_app, (line_breaks_none line)
      by apply audit_line_no_LF.
    rewrite line_breaks_cons, line_breaks_nil.
    destruct (decide (LF = LF)); [lia|done].
  - intros m0 out0 cs0 dir0 Hd Hdir Hreset.
    rewrite Hfiles, lookup_insert_eq. f_equal.
    rewrite resetChangelog_run in Hreset.
    assert (record = resolve d ("changelog/" +:+ getChangelogFileName f))
      as Hrecord.
    { subst record. rewrite Hdir. by apply main_changelog_record. }
    rewrite <- Hrecord in Hreset.
    destruct (m0 !! record); [|done]. injection Hreset as <- _ _.
    by rewrite lookup_delete_eq.
Qed.

Lemma addActionToChangelog_appends_one_audit_line_witness :
  let w0 :=
    disk "/home/u"
      [("/home/u/a.txt", lines ["x"; "y"]);
       ("/home/u/changelog/a.txt.changelog",
        lines ["[Created file] Number of lines after action: 0";
               "[Appended line] Number of lines after action: 1"])] in
  let w := snd (resetChangelog "a.txt" "/home/u/changelog" w0) in
  let w' :=
    snd (addActionToChangelog 0 "a.txt" ACTION_APPEND_LINE
           "/home/u/changelog" w) in
  files w' !! "/home/u/changelog/a.txt.changelog"
  = Some (lines ["[Appended line] Number of lines after action: 2"]).
Proof.
  intros w0 w w'.
  assert (addActionToChangelog 0 "a.txt" ACTION_APPEND_LINE
            "/home/u/changelog"
            (World "/home/u" (files w) (stdout w) (calls w))
          = (SUCCESS, w')) as Hrun by (vm_compute; reflexivity).
  destruct (addActionToChangelog_appends_one_audit_line _ _ _ _ _ _ _ _ _ Hrun)
    as (_ & _ & _ & _ & _ & _ & Hreset).
  apply (Hreset (files w0) (stdout w0) (calls w0) "/home/u/changelog").
  - vm_compute. reflexivity.
  - vm_compute. reflexivity.
  - vm_compute. reflexivity.
Defined.

(** C8. [copyFile] should fail when the new file exists or the source is
    missing, creating nothing, and otherwise give the new file the bytes of
    the source, which it leaves alone.  The failures are as stated
    ([copyFile_run]); the copy is not byte for byte: the buffer of
    [getFileContents] goes through ["%s"], which stops at the first NUL of
    the source (["a\0b"] is copied as ["a"]) and, the buffer having no
    terminator, runs on into the memory behind it (["abc"] followed in
    memory by ["Z\0"] is copied as ["abcZ"]). *)
Theorem copyFile_not_byte_exact :
  let w := disk "/home/u" [("/home/u/a.txt", ["a"; NUL; "b"]%char)] in
  let v := disk "/home/u" [("/home/u/a.txt", text "abc")] in
  (forall beyond,
     fst (copyFile beyond "a.txt" "b.txt" w) = SUCCESS
     /\ files (snd (copyFile beyond "a.txt" "b.txt" w)) !! "/home/u/b.txt"
        = Some (text "a"))
  /\ fst (copyFile (text "Z" ++ [NUL]) "a.txt" "b.txt" v) = SUCCESS
  /\ files (snd (copyFile (text "Z" ++ [NUL]) "a.txt" "b.txt" v))
       !! "/home/u/b.txt" = Some (text "abcZ").
Proof. split; [intros beyond|]; vm_compute; split; done. Qed.

(** What [appendLineToFile] does by itself: on an existing file it succeeds
    and adds the content and one line-break at the end, all other bytes and
    files staying as they are; on a missing file it fails and changes
    nothing.  When the content holds no line-break, two counts that both
    enter their loop differ by one. *)
Theorem appendLineToFile_appends_content_and_line_break
    d m out cs f content :
  let p := resolve d f in
  let w := World d m out cs in
  (forall s, m !! p = Some s ->
     fst (appendLineToFile f content w) = SUCCESS
     /\ files (snd (appendLineToFile f content w))
        = <[p := s ++ content ++ [LF]]> m
     /\ (LF ∉ content -> forall u u', u <> EOF -> u' <> EOF ->
         fst (getNumberOfLinesInFile u' p (snd (appendLineToFile f content w)))
         = fst (getNumberOfLinesInFile u p w) + 1))
  /\ (m !! p = None -> appendLineToFile f content w = (FAILURE, w)).
Proof.
  intros p w. subst p w. rewrite appendLineToFile_run. split.
  - intros s Hs. rewrite Hs. cbn [fst snd files]. split_and!; try done.
    intros Hcontent u u' Hu Hu'.
    rewrite (getNumberOfLinesInFile_counts u' _ _ _ _ _ (s ++ content ++ [LF]))
      by (done || apply lookup_insert_eq).
    rewrite (getNumberOfLinesInFile_counts u _ _ _ _ _ s) by done.
    rewrite !line_breaks_app, (line_breaks_none content) by done.
    rewrite line_breaks_cons, line_breaks_nil.
    destruct (decide (LF = LF)); [lia|done].
  - by intros ->.
Qed.

Lemma appendLineToFile_appends_content_and_line_break_witness :
  let m : gmap string (list ascii) :=
    list_to_map [("/home/u/a.txt", lines ["x"])] in
  let w := World "/home/u" m [] [] in
  (fst (appendLineToFile "a.txt" (text "y") w) = SUCCESS
   /\ files (snd (appendLineToFile "a.txt" (text "y") w))
      = <[resolve "/home/u" "a.txt" := lines ["x"] ++ text "y" ++ [LF]]> m
   /\ fst (getNumberOfLinesInFile 0 (resolve "/home/u" "a.txt")
             (snd (appendLineToFile "a.txt" (text "y") w)))
      = fst (getNumberOfLinesInFile 7 (resolve "/home/u" "a.txt") w) + 1)
  /\ appendLineToFile "b.txt" (text "y") w = (FAILURE, w).
Proof.
  intros m w. subst w. split.
  - destruct (appendLineToFile_appends_content_and_line_break
                "/home/u" m [] [] "a.txt" (text "y"))
      as [Hpresent _].
    destruct (Hpresent (lines ["x"])) as (Hstatus & Hfiles & Hcount).
    { vm_compute. reflexivity. }
    split; [exact Hstatus|]. split; [exact Hfiles|].
    assert (LF ∉ text "y") as Hy.
    { apply not_elem_of_cons. split; [discriminate|apply not_elem_of_nil]. }
    exact (Hcount Hy 7 0 ltac:(discriminate) ltac:(discriminate)).
  - destruct (appendLineToFile_appends_content_and_line_break
                "/home/u" m [] [] "b.txt" (text "y"))
      as [_ Hmissing].
    apply Hmissing. vm_compute. reflexivity.
Defined.

(** C9. [appendLineToFile] appends the content and one line-break, but
    the line count does not always grow by one: the count is taken by
    [getNumberOfLinesInFile], whose loop is guarded by a variable that has
    not been assigned.  On ["x\n"] with ["y"] appended the file is
    ["x\ny\n"]; a count that finds [EOF] in the variable, as the loop of
    the count before leaves it, skips the file and is 0, where the count
    before was 1, or 0 when it skipped its loop too. *)
Theorem appendLineToFile_count_not_one_more :
  let m : gmap string (list ascii) :=
    list_to_map [("/home/u/a.txt", lines ["x"])] in
  let w := World "/home/u" m [] [] in
  let p := resolve "/home/u" "a.txt" in
  let w' := snd (appendLineToFile "a.txt" (text "y") w) in
  fst (appendLineToFile "a.txt" (text "y") w) = SUCCESS
  /\ files w' !! p = Some (lines ["x"; "y"])
  /\ fst (getNumberOfLinesInFile 0 p w) = 1
  /\ fst (getNumberOfLinesInFile EOF p w) = 0
  /\ fst (getNumberOfLinesInFile EOF p w') = 0.
Proof. vm_compute. repeat split; reflexivity. Qed.

(** C10. [resetChangelog] and [showChangelog] never read their
    [changelog_directory] argument: whatever it is, they work on the record
    at the relative path ["changelog/<file_name>.changelog"], so that their
    result and their effect are the same for any two directories. *)
Theorem changelog_directory_argument_unused
    beyond d m out cs f dir1 dir2 :
  let w := World d m out cs in
  let record := resolve d ("changelog/" +:+ f +:+ ".changelog") in
  resetChangelog f dir1 w = resetChangelog f dir2 w
  /\ showChangelog beyond f dir1 w = showChangelog beyond f dir2 w
  /\ resetChangelog f dir1 w
     = match m !! record with
       | Some _ =>
           (SUCCESS,
            World d (delete record m) out (cs ++ [Call_remove record]))
       | None => (FAILURE, World d m out (cs ++ [Call_remove record]))
       end
  /\ showChangelog beyond f dir1 w
     = match m !! record with
       | Some s =>
           (SUCCESS,
            World d m
              (out ++ text "Contents of file:" ++ [LF] ++ printed beyond s)
              (cs ++ [Call_fopen record Mode_rb; Call_fclose record]))
       | None => (FAILURE, World d m out (cs ++ [Call_fopen record Mode_rb]))
       end.
Proof.
  intros w record. split_and!.
  - reflexivity.
  - reflexivity.
  - apply resetChangelog_run.
  - apply showChangelog_run.
Qed.

(** * Further properties of the program *)

(** ** Files as a whole *)

Lemma createFile_run d m out cs f :
  createFile f (World d m out cs)
  = match m !! resolve d f with
    | Some _ => (FAILURE, World d m out cs)
    | None =>
        (SUCCESS,
         World d (<[resolve d f := []]> m) out
           (cs ++ [Call_fopen (resolve d f) Mode_a;
                   Call_fclose (resolve d f)]))
    end.
Proof.
  destruct (m !! resolve d f) as [s|] eqn:Hs; io_steps; [done|].
  by rewrite <- app_assoc.
Qed.

Lemma deleteFile_run d m out cs f :
  deleteFile f (World d m out cs)
  = match m !! resolve d f with
    | Some _ =>
        (SUCCESS,
         World d (delete (resolve d f) m) out
           (cs ++ [Call_remove (resolve d f)]))
    | None => (FAILURE, World d m out (cs ++ [Call_remove (resolve d f)]))
    end.
Proof. destruct (m !! resolve d f) as [s|] eqn:Hs; by io_steps. Qed.

(** X1. [createFile] refuses a name that is taken, without touching the file
    that has it or anything else; on a free name it creates an empty file
    and changes no other. *)
Theorem createFile_creates_empty_or_refuses d m out cs f :
  createFile f (World d m out cs)
  = match m !! resolve d f with
    | Some _ => (FAILURE, World d m out cs)
    | None =>
        (SUCCESS,
         World d (<[resolve d f := []]> m) out
           (cs ++ [Call_fopen (resolve d f) Mode_a;
                   Call_fclose (resolve d f)]))
    end.
Proof. apply createFile_run. Qed.

(** X2. [deleteFile] removes the named file and no other, and fails on a
    missing file with the disk as it was; a file created on a free name and
    deleted again leaves the disk as it was before. *)
Theorem deleteFile_removes_and_undoes_createFile d m out cs f :
  deleteFile f (World d m out cs)
  = match m !! resolve d f with
    | Some _ =>
        (SUCCESS,
         World d (delete (resolve d f) m) out
           (cs ++ [Call_remove (resolve d f)]))
    | None => (FAILURE, World d m out (cs ++ [Call_remove (resolve d f)]))
    end
  /\ (m !! resolve d f = None ->
      fst (createFile f (World d m out cs)) = SUCCESS
      /\ fst (deleteFile f (snd (createFile f (World d m out cs)))) = SUCCESS
      /\ files (snd (deleteFile f (snd (createFile f (World d m out cs)))))
         = m).
Proof.
  split; [apply deleteFile_run|].
  intros Hs. rewrite createFile_run, Hs. cbn [fst snd].
  rewrite deleteFile_run, lookup_insert_eq. cbn [fst snd files].
  split_and!; try done. same_files.
Qed.

Lemma deleteFile_removes_and_undoes_createFile_witness :
  let m : gmap string (list ascii) :=
    list_to_map [("/home/u/a.txt", lines ["x"])] in
  let w := World "/home/u" m [] [] in
  files (snd (deleteFile "b.txt" (snd (createFile "b.txt" w)))) = m.
Proof.
  intros m w. subst w.
  destruct (deleteFile_removes_and_undoes_createFile
              "/home/u" m [] [] "b.txt") as [_ Hundo].
  destruct Hundo as (_ & _ & Hfiles).
  - vm_compute. reflexivity.
  - exact Hfiles.
Defined.

(** X3. [wrename] fails when the old name is missing and changes nothing
    then; otherwise the new name gets the bytes of the old one, which is
    gone, and a file that had the new name is overwritten.  Renaming to a
    free name and back restores the disk. *)
Theorem wrename_moves_and_returns d m out cs old new :
  wrename old new (World d m out cs)
  = match m !! resolve d old with
    | Some bytes =>
        (SUCCESS,
         World d (<[resolve d new := bytes]> (delete (resolve d old) m)) out
           (cs ++ [Call_rename (resolve d old) (resolve d new)]))
    | None =>
        (FAILURE,
         World d m out (cs ++ [Call_rename (resolve d old) (resolve d new)]))
    end
  /\ (is_Some (m !! resolve d old) -> m !! resolve d new = None ->
      files (snd (wrename new old (snd (wrename old new (World d m out cs)))))
      = m).
Proof.
  split.
  - destruct (m !! resolve d old) as [s|] eqn:Hs; by io_steps.
  - intros [s Hs] Hnew.
    assert (resolve d old <> resolve d new) by congruence.
    io_steps. cbn [files]. same_files.
Qed.

Lemma wrename_moves_and_returns_witness :
  let m : gmap string (list ascii) :=
    list_to_map [("/home/u/a.txt", lines ["x"])] in
  let w := World "/home/u" m [] [] in
  files (snd (wrename "b.txt" "a.txt" (snd (wrename "a.txt" "b.txt" w)))) = m.
Proof.
  intros m w. subst w.
  destruct (wrename_moves_and_returns "/home/u" m [] [] "a.txt" "b.txt")
    as [_ Hback].
  apply Hback.
  - exists (lines ["x"]). vm_compute. reflexivity.
  - vm_compute. reflexivity.
Defined.

(** ** Reading *)

(** X4. However [current_character] starts, the count of
    [getNumberOfLinesInFile] is never negative and never above the number
    of line-breaks of the file, and counting changes neither the files nor
    the output. *)
Theorem getNumberOfLinesInFile_never_overcounts u d m out cs p :
  0 <= fst (getNumberOfLinesInFile u p (World d m out cs))
    <= line_breaks (default [] (m !! p))
  /\ files (snd (getNumberOfLinesInFile u p (World d m out cs))) = m
  /\ stdout (snd (getNumberOfLinesInFile u p (World d m out cs))) = out.
Proof.
  rewrite getNumberOfLinesInFile_run. cbn [fst snd files stdout].
  split; [apply lines_loop_bounds|done].
Qed.

(** X5. When its count enters the loop, [validateLineNumber] accepts the
    line numbers from 1 to the number of line-breaks of the file and no
    other. *)
Theorem validateLineNumber_accepts_1_to_count u d m out cs p n s :
  u <> EOF -> m !! p = Some s ->
  fst (validateLineNumber u p n (World d m out cs))
  = if bool_decide (1 <= n <= line_breaks s) then SUCCESS else FAILURE.
Proof.
  intros Hu Hs. io_run. rewrite Hs. io_run.
  rewrite lines_loop_entered by done. rewrite Z.add_0_l.
  case_bool_decide.
  - by rewrite in_range.
  - by rewrite out_of_range by lia.
Qed.

Lemma validateLineNumber_accepts_1_to_count_witness :
  let m : gmap string (list ascii) :=
    list_to_map [("/home/u/a.txt", lines ["x"; "y"])] in
  fst (validateLineNumber 0 "/home/u/a.txt" 2 (World "/home/u" m [] []))
  = SUCCESS
  /\ fst (validateLineNumber 0 "/home/u/a.txt" 3 (World "/home/u" m [] []))
     = FAILURE.
Proof.
  intros m. split.
  - rewrite (validateLineNumber_accepts_1_to_count 0 "/home/u" m [] []
               "/home/u/a.txt" 2 (lines ["x"; "y"]));
      [reflexivity|discriminate|vm_compute; reflexivity].
  - rewrite (validateLineNumber_accepts_1_to_count 0 "/home/u" m [] []
               "/home/u/a.txt" 3 (lines ["x"; "y"]));
      [reflexivity|discriminate|vm_compute; reflexivity].
Defined.

(** X6. On an existing file, and when the count enters its loop,
    [displayNumberOfLinesInFile] prints the one line
    ["Number of lines in '<name>': <N>"] with the number of line-breaks of
    the file for [N], and leaves the files alone; on a missing file it fails
    and prints nothing. *)
Theorem displayNumberOfLinesInFile_prints_count u d m out cs f :
  (forall s, u <> EOF -> m !! resolve d f = Some s ->
     displayNumberOfLinesInFile u f (World d m out cs)
     = (SUCCESS,
        World d m
          (out ++ text "Number of lines in '" ++ text f ++ text "': "
               ++ decimal (line_breaks s) ++ [LF])
          (cs ++ [Call_fopen (resolve d f) Mode_r;
                  Call_scan (resolve d f);
                  Call_fclose (resolve d f)])))
  /\ (m !! resolve d f = None ->
      displayNumberOfLinesInFile u f (World d m out cs)
      = (FAILURE, World d m out (cs ++ [Call_fopen (resolve d f) Mode_r]))).
Proof.
  split.
  - intros s Hu Hs. cbv beta iota zeta delta [displayNumberOfLinesInFile].
    io_steps. rewrite lines_loop_entered by done. rewrite Z.add_0_l.
    f_equal. f_equal; by rewrite <- !app_assoc.
  - intros Hs. cbv beta iota zeta delta [displayNumberOfLinesInFile].
    by io_steps.
Qed.

Lemma displayNumberOfLinesInFile_prints_count_witness :
  let m : gmap string (list ascii) :=
    list_to_map [("/home/u/a.txt", lines ["x"; "y"])] in
  stdout (snd (displayNumberOfLinesInFile 0 "a.txt" (World "/home/u" m [] [])))
  = text "Number of lines in 'a.txt': 2" ++ [LF]
  /\ fst (displayNumberOfLinesInFile 0 "b.txt" (World "/home/u" m [] []))
     = FAILURE.
Proof.
  intros m.
  destruct (displayNumberOfLinesInFile_prints_count 0 "/home/u" m [] []
              "a.txt") as [Hpresent _].
  destruct (displayNumberOfLinesInFile_prints_count 0 "/home/u" m [] []
              "b.txt") as [_ Hmissing].
  split.
  - rewrite (Hpresent (lines ["x"; "y"]));
      [reflexivity|discriminate|vm_compute; reflexivity].
  - rewrite Hmissing; [reflexivity|vm_compute; reflexivity].
Defined.

(** X7. The operations that read ([fileExists], [validateLineNumber],
    [displayFile], [showLineFromFile], [displayNumberOfLinesInFile] and
    [showChangelog]) never change a file, whether they succeed or fail. *)
Theorem reading_changes_no_file u beyond d m out cs f p n dir :
  let w := World d m out cs in
  files (snd (fileExists f w)) = m
  /\ files (snd (validateLineNumber u p n w)) = m
  /\ files (snd (displayFile beyond f w)) = m
  /\ files (snd (showLineFromFile u f n w)) = m
  /\ files (snd (displayNumberOfLinesInFile u f w)) = m
  /\ files (snd (showChangelog beyond f dir w)) = m.
Proof.
  intros w. subst w. split_and!.
  - by io_run.
  - io_run. by destruct (_ || _).
  - rewrite displayFile_run. by destruct (m !! _).
  - destruct (m !! resolve d f) as [s|] eqn:Hs.
    + destruct (decide (1 <= n <= lines_loop u s 0)).
      * by rewrite (showLineFromFile_runs u d m out cs f n s).
      * by rewrite (showLineFromFile_rejects u d m out cs f n s)
          by (done || lia).
    + by rewrite showLineFromFile_missing.
  - cbv beta iota zeta delta [displayNumberOfLinesInFile].
    destruct (m !! resolve d f) as [s|] eqn:Hs; by io_steps.
  - rewrite showChangelog_run. by destruct (m !! _).
Qed.

(** ** Editing lines *)

(** X8. For a valid line number from 2 on, [insertLineInFile] puts the new
    content and a line-break right behind the line-break number [n - 1]
    that follows the first byte, and leaves the bytes before and behind as
    they are; when the file does not start with a line-break that is the
    start of line [n].  Nothing is printed. *)
Theorem insertLineInFile_inserts_before_line_n
    u d m out cs f n c pre post X :
  resolve d f <> resolve d TEMP_FILE_NAME ->
  2 <= n -> line_breaks pre = n - 2 ->
  m !! resolve d f = Some (c :: pre ++ LF :: post) ->
  n <= lines_loop u (c :: pre ++ LF :: post) 0 ->
  let r := insertLineInFile u f X n (World d m out cs) in
  fst r = SUCCESS
  /\ files (snd r) !! resolve d f
     = Some ((c :: pre ++ [LF]) ++ X ++ [LF] ++ post)
  /\ stdout (snd r) = out
  /\ (c <> LF -> line_breaks (c :: pre ++ [LF]) = n - 1).
Proof.
  intros Hne Hn Hpre Hs Hvalid r. subst r.
  rewrite (insertLineInFile_runs _ _ _ _ _ _ _ _ _ Hs) by (done || lia).
  rewrite insert_copy_middle by done. cbn [fst snd files stdout].
  split_and!; try done.
  - rewrite lookup_insert_eq. f_equal. simpl. by rewrite <- app_assoc.
  - intros Hc. rewrite line_breaks_cons, line_breaks_app, line_breaks_cons,
      line_breaks_nil.
    destruct (decide (c = LF)); destruct (decide (LF = LF)); try done; lia.
Qed.

Lemma insertLineInFile_inserts_before_line_n_witness :
  let m : gmap string (list ascii) :=
    list_to_map [("/home/u/a.txt", lines ["x"; "y"; "z"])] in
  files (snd (insertLineInFile 0 "a.txt" (text "new") 3
                (World "/home/u" m [] [])))
    !! resolve "/home/u" "a.txt"
  = Some (("x"%char :: (LF :: text "y") ++ [LF]) ++ text "new" ++ [LF]
            ++ lines ["z"]).
Proof.
  intros m.
  destruct (insertLineInFile_inserts_before_line_n 0 "/home/u" m [] []
              "a.txt" 3 "x"%char (LF :: text "y") (lines ["z"]) (text "new"))
    as (_ & Hfiles & _).
  - vm_compute. discriminate.
  - lia.
  - vm_compute. reflexivity.
  - vm_compute. reflexivity.
  - vm_compute. discriminate.
  - exact Hfiles.
Defined.

(** X9. For a valid line number from 2 on, [deleteLineFromFile] removes the
    bytes between the line-breaks number [n - 1] and [n] that follow the
    first byte, and one of the two line-breaks; a count that enters its loop
    finds one line less afterwards. *)
Theorem deleteLineFromFile_deletes_line_n
    u u' d m out cs f n c pre mid post :
  resolve d f <> resolve d TEMP_FILE_NAME ->
  2 <= n -> line_breaks pre = n - 2 -> LF ∉ mid ->
  m !! resolve d f = Some (c :: pre ++ LF :: mid ++ LF :: post) ->
  n <= lines_loop u (c :: pre ++ LF :: mid ++ LF :: post) 0 ->
  u' <> EOF ->
  let w := World d m out cs in
  let r := deleteLineFromFile u f n w in
  fst r = SUCCESS
  /\ files (snd r) !! resolve d f = Some (c :: pre ++ LF :: post)
  /\ fst (getNumberOfLinesInFile u' (resolve d f) (snd r))
     = fst (getNumberOfLinesInFile u' (resolve d f) w) - 1.
Proof.
  intros Hne Hn Hpre Hmid Hs Hvalid Hu' w r. subst r w.
  rewrite (deleteLineFromFile_runs _ _ _ _ _ _ _ _ Hs) by (done || lia).
  rewrite delete_copy_middle by done. cbn [fst snd files].
  split_and!; try done.
  - by rewrite lookup_insert_eq.
  - rewrite (getNumberOfLinesInFile_counts u' _ _ _ _ _
               (c :: pre ++ LF :: post)) by (done || apply lookup_insert_eq).
    rewrite (getNumberOfLinesInFile_counts u' _ _ _ _ _ _ Hu' Hs).
    rewrite !line_breaks_cons, !line_breaks_app, !line_breaks_cons,
      line_breaks_app, line_breaks_cons, (line_breaks_none mid) by done.
    destruct (decide (c = LF)); destruct (decide (LF = LF)); try done; lia.
Qed.

Lemma deleteLineFromFile_deletes_line_n_witness :
  let m : gmap string (list ascii) :=
    list_to_map [("/home/u/a.txt", lines ["x"; "y"; "z"])] in
  files (snd (deleteLineFromFile 0 "a.txt" 2 (World "/home/u" m [] [])))
    !! resolve "/home/u" "a.txt"
  = Some ("x"%char :: [] ++ LF :: lines ["z"]).
Proof.
  intros m.
  destruct (deleteLineFromFile_deletes_line_n 0 0 "/home/u" m [] []
              "a.txt" 2 "x"%char [] (text "y") (lines ["z"]))
    as (_ & Hfiles & _).
  - vm_compute. discriminate.
  - lia.
  - vm_compute. reflexivity.
  - intros H. apply elem_of_cons in H as [H|H]; [discriminate|].
    by apply elem_of_nil in H.
  - vm_compute. reflexivity.
  - vm_compute. discriminate.
  - discriminate.
  - exact Hfiles.
Defined.

(** What the two operations that follow an insertion do when their count
    skips its loop: the count is 0, so that every line number is refused. *)
Lemma showLineFromFile_loop_skipped d m out cs f n s :
  m !! resolve d f = Some s -> 1 <= n ->
  showLineFromFile EOF f n (World d m out cs)
  = (FAILURE,
     World d m out
       (cs ++ [Call_fopen (resolve d f) Mode_r; Call_scan (resolve d f)])).
Proof.
  intros Hs Hn. apply (showLineFromFile_rejects EOF d m out cs f n s Hs).
  right. rewrite lines_loop_skipped. lia.
Qed.

Lemma deleteLineFromFile_loop_skipped d m out cs f n s :
  m !! resolve d f = Some s -> 1 <= n ->
  deleteLineFromFile EOF f n (World d m out cs)
  = (FAILURE,
     World d (<[resolve d TEMP_FILE_NAME := []]> m) out
       (cs ++ [Call_fopen (resolve d f) Mode_r;
               Call_fopen (resolve d TEMP_FILE_NAME) Mode_w;
               Call_scan (resolve d f)])).
Proof.
  intros Hs Hn. io_run. rewrite Hs. io_run.
  set (k := lines_loop EOF _ 0).
  assert (k = 0) as -> by (subst k; apply lines_loop_skipped).
  rewrite (out_of_range n 0) by lia. io_run.
  by rewrite <- !app_assoc.
Qed.

(** X10. After an insertion at a valid line number from 2 on, of a content
    without line-break, [showLineFromFile] at that number succeeds and
    prints the header and the new content when its count enters its loop;
    when its count skips the loop it fails and prints nothing. *)
Theorem insert_then_show_prints_new_line
    u u' d m out cs f n c pre post X :
  resolve d f <> resolve d TEMP_FILE_NAME ->
  2 <= n -> line_breaks pre = n - 2 -> LF ∉ X ->
  m !! resolve d f = Some (c :: pre ++ LF :: post) ->
  n <= lines_loop u (c :: pre ++ LF :: post) 0 ->
  let w' := snd (insertLineInFile u f X n (World d m out cs)) in
  (u' <> EOF ->
   fst (showLineFromFile u' f n w') = SUCCESS
   /\ stdout (snd (showLineFromFile u' f n w'))
      = out ++ text "Content at line " ++ decimal n ++ text ":" ++ [LF]
            ++ X ++ [LF])
  /\ fst (showLineFromFile EOF f n w') = FAILURE
  /\ stdout (snd (showLineFromFile EOF f n w')) = out.
Proof.
  intros Hne Hn Hpre HX Hs Hvalid w'. subst w'. split; [intros Hu'; split|].
  - rewrite (insertLineInFile_runs _ _ _ _ _ _ _ _ _ Hs) by (done || lia).
    rewrite insert_copy_middle by done. cbn [snd].
    by rewrite (showLineFromFile_runs u' d _ out _ f n
                  (c :: pre ++ LF :: X ++ LF :: post))
      by (apply lookup_insert_eq || (apply inserted_line_count; done)).
  - by apply (insert_then_show_line_n u u' d m out cs f n c pre post X).
  - rewrite (insertLineInFile_runs _ _ _ _ _ _ _ _ _ Hs) by (done || lia).
    cbn [snd].
    by rewrite (showLineFromFile_loop_skipped d _ out _ f n
                  (insert_copy X n (c :: pre ++ LF :: post)))
      by (apply lookup_insert_eq || lia).
Qed.

Lemma insert_then_show_prints_new_line_witness :
  let m : gmap string (list ascii) :=
    list_to_map [("/home/u/a.txt", lines ["x"; "y"])] in
  let w' :=
    snd (insertLineInFile 0 "a.txt" (text "new") 2
           (World "/home/u" m [] [])) in
  stdout (snd (showLineFromFile 0 "a.txt" 2 w'))
  = [] ++ text "Content at line " ++ decimal 2 ++ text ":" ++ [LF]
       ++ text "new" ++ [LF]
  /\ fst (showLineFromFile EOF "a.txt" 2 w') = FAILURE.
Proof.
  intros m.
  destruct (insert_then_show_prints_new_line 0 0 "/home/u" m [] []
              "a.txt" 2 "x"%char [] (lines ["y"]) (text "new"))
    as (Hentered & Hskipped & _).
  - vm_compute. discriminate.
  - lia.
  - vm_compute. reflexivity.
  - intros H. repeat (apply elem_of_cons in H as [H|H]; [discriminate|]).
    by apply elem_of_nil in H.
  - vm_compute. reflexivity.
  - vm_compute. discriminate.
  - destruct Hentered as [_ Hshown]; [discriminate|].
    split; [exact Hshown|exact Hskipped].
Defined.

(** X11. For a valid line number from 2 on and a content without line-break,
    [insertLineInFile] followed by [deleteLineFromFile] at the same number
    gives every file its bytes back when the count of the deletion enters
    its loop; all that differs on disk is that no scratch file is left.
    When that count skips its loop the deletion fails: the inserted line
    stays, and an empty scratch file is left. *)
Theorem insert_then_delete_restores_from_line_2
    u u' d m out cs f n c pre post X :
  resolve d f <> resolve d TEMP_FILE_NAME ->
  2 <= n -> line_breaks pre = n - 2 -> LF ∉ X ->
  m !! resolve d f = Some (c :: pre ++ LF :: post) ->
  n <= lines_loop u (c :: pre ++ LF :: post) 0 ->
  let w' := snd (insertLineInFile u f X n (World d m out cs)) in
  (u' <> EOF ->
   files (snd (deleteLineFromFile u' f n w'))
   = delete (resolve d TEMP_FILE_NAME) m)
  /\ fst (deleteLineFromFile EOF f n w') = FAILURE
  /\ files (snd (deleteLineFromFile EOF f n w')) !! resolve d f
     = Some (c :: pre ++ LF :: X ++ LF :: post)
  /\ files (snd (deleteLineFromFile EOF f n w'))
       !! resolve d TEMP_FILE_NAME
     = Some [].
Proof.
  intros Hne Hn Hpre HX Hs Hvalid w'. subst w'. split.
  { intros Hu'.
    by apply (insert_then_delete_line_n u u' d m out cs f n c pre post X). }
  rewrite (insertLineInFile_runs _ _ _ _ _ _ _ _ _ Hs) by (done || lia).
  rewrite insert_copy_middle by done. cbn [snd].
  rewrite (deleteLineFromFile_loop_skipped d _ out _ f n
             (c :: pre ++ LF :: X ++ LF :: post))
    by (apply lookup_insert_eq || lia).
  cbn [fst snd files]. split_and!; [done| |apply lookup_insert_eq].
  by rewrite lookup_insert_ne, lookup_insert_eq by done.
Qed.

Lemma insert_then_delete_restores_from_line_2_witness :
  let m : gmap string (list ascii) :=
    list_to_map [("/home/u/a.txt", lines ["x"; "y"])] in
  let w' :=
    snd (insertLineInFile 0 "a.txt" (text "new") 2
           (World "/home/u" m [] [])) in
  files (snd (deleteLineFromFile 0 "a.txt" 2 w'))
  = delete (resolve "/home/u" TEMP_FILE_NAME) m
  /\ fst (deleteLineFromFile EOF "a.txt" 2 w') = FAILURE.
Proof.
  intros m.
  destruct (insert_then_delete_restores_from_line_2 0 0 "/home/u" m [] []
              "a.txt" 2 "x"%char [] (lines ["y"]) (text "new"))
    as (Hentered & Hskipped & _).
  - vm_compute. discriminate.
  - lia.
  - vm_compute. reflexivity.
  - intros H. repeat (apply elem_of_cons in H as [H|H]; [discriminate|]).
    by apply elem_of_nil in H.
  - vm_compute. reflexivity.
  - vm_compute. discriminate.
  - split; [apply Hentered; discriminate|exact Hskipped].
Defined.

(** X12. A rewrite that succeeds, at any valid line number, changes the
    file it is asked to change and the scratch file only: every other file
    keeps its bytes, and no [file.tmp] exists afterwards, so that a file of
    that name in the working directory is lost. *)
Theorem rewrite_touches_target_and_scratch_only u d m out cs f n s X k :
  resolve d f <> resolve d TEMP_FILE_NAME ->
  m !! resolve d f = Some s ->
  1 <= n <= lines_loop u s 0 ->
  let w := World d m out cs in
  fst (insertLineInFile u f X n w) = SUCCESS
  /\ fst (deleteLineFromFile u f n w) = SUCCESS
  /\ files (snd (insertLineInFile u f X n w)) !! resolve d TEMP_FILE_NAME
     = None
  /\ files (snd (deleteLineFromFile u f n w)) !! resolve d TEMP_FILE_NAME
     = None
  /\ (k <> resolve d f -> k <> resolve d TEMP_FILE_NAME ->
      files (snd (insertLineInFile u f X n w)) !! k = m !! k
      /\ files (snd (deleteLineFromFile u f n w)) !! k = m !! k).
Proof.
  intros Hne Hs Hn w. subst w.
  rewrite (insertLineInFile_runs _ _ _ _ _ _ _ _ _ Hs) by done.
  rewrite (deleteLineFromFile_runs _ _ _ _ _ _ _ _ Hs) by done.
  cbn [fst snd files]. split_and!; try done.
  - by rewrite lookup_insert_ne, lookup_delete_eq.
  - by rewrite lookup_insert_ne, lookup_delete_eq.
  - intros Hk Hk'.
    by rewrite !lookup_insert_ne, !lookup_delete_ne by done.
Qed.

Lemma rewrite_touches_target_and_scratch_only_witness :
  let m : gmap string (list ascii) :=
    list_to_map [("/home/u/a.txt", lines ["x"; "y"]);
                 ("/home/u/file.tmp", lines ["kept?"])] in
  files (snd (insertLineInFile 0 "a.txt" (text "new") 1
                (World "/home/u" m [] [])))
    !! resolve "/home/u" TEMP_FILE_NAME = None.
Proof.
  intros m.
  destruct (rewrite_touches_target_and_scratch_only 0 "/home/u" m [] []
              "a.txt" 1 (lines ["x"; "y"]) (text "new") "/home/u/b.txt")
    as (_ & _ & Hscratch & _).
  - vm_compute. discriminate.
  - vm_compute. reflexivity.
  - vm_compute. split; discriminate.
  - exact Hscratch.
Defined.

(** X13. At line 1 the two rewrites treat the first byte of the file apart:
    [insertLineInFile] writes the new content and a line-break in the place
    of the first byte, so that the file is the new line followed by the old
    bytes from the second on; [deleteLineFromFile] drops the bytes up to the
    first line-break behind the first byte and keeps that line-break. *)
Theorem rewrites_at_line_1 u d m out cs f X c rest mid post :
  resolve d f <> resolve d TEMP_FILE_NAME ->
  (m !! resolve d f = Some (c :: rest) ->
   1 <= lines_loop u (c :: rest) 0 ->
   files (snd (insertLineInFile u f X 1 (World d m out cs))) !! resolve d f
   = Some (X ++ LF :: rest))
  /\ (LF ∉ mid ->
      m !! resolve d f = Some (c :: mid ++ LF :: post) ->
      1 <= lines_loop u (c :: mid ++ LF :: post) 0 ->
      files (snd (deleteLineFromFile u f 1 (World d m out cs)))
        !! resolve d f
      = Some (LF :: post)).
Proof.
  intros Hne. split.
  - intros Hs Hn.
    rewrite (insertLineInFile_line_1 u d m out cs f Hne X c rest) by done.
    apply lookup_insert_eq.
  - intros Hmid Hs Hn.
    rewrite (deleteLineFromFile_line_1 u d m out cs f Hne c mid post) by done.
    apply lookup_insert_eq.
Qed.

Lemma rewrites_at_line_1_witness :
  let m : gmap string (list ascii) :=
    list_to_map [("/home/u/a.txt", lines ["xy"; "z"])] in
  files (snd (insertLineInFile 0 "a.txt" (text "new") 1
                (World "/home/u" m [] [])))
    !! resolve "/home/u" "a.txt"
  = Some (text "new" ++ LF :: text "y" ++ LF :: lines ["z"])
  /\ files (snd (deleteLineFromFile 0 "a.txt" 1 (World "/home/u" m [] [])))
       !! resolve "/home/u" "a.txt"
     = Some (LF :: lines ["z"]).
Proof.
  intros m.
  destruct (rewrites_at_line_1 0 "/home/u" m [] [] "a.txt" (text "new")
              "x"%char (text "y" ++ LF :: lines ["z"]) (text "y")
              (lines ["z"])) as [Hinsert Hdelete].
  - vm_compute. discriminate.
  - split.
    + apply Hinsert; [vm_compute; reflexivity|vm_compute; discriminate].
    + apply Hdelete.
      * intros H. apply elem_of_cons in H as [H|H]; [discriminate|].
        by apply elem_of_nil in H.
      * vm_compute. reflexivity.
      * vm_compute. discriminate.
Defined.

(** X14. [showLineFromFile] counts the line-breaks behind the first byte
    only.  For a valid [n] from 2 on it prints the bytes between the
    line-breaks number [n - 1] and [n] behind the first byte, which is line
    [n] of a file that starts with another byte and line [n + 1] of a file
    that starts with a line-break; for [n = 1] it prints the first byte,
    unless that is a line-break, and the bytes up to the next line-break. *)
Theorem showLineFromFile_counts_behind_first_byte
    u d m out cs f n c pre mid post :
  LF ∉ mid ->
  (2 <= n -> line_breaks pre = n - 2 ->
   m !! resolve d f = Some (c :: pre ++ LF :: mid ++ LF :: post) ->
   n <= lines_loop u (c :: pre ++ LF :: mid ++ LF :: post) 0 ->
   stdout (snd (showLineFromFile u f n (World d m out cs)))
   = out ++ text "Content at line " ++ decimal n ++ text ":" ++ [LF]
         ++ mid ++ [LF]
   /\ line_breaks (c :: pre ++ [LF])
      = if decide (c = LF) then n else n - 1)
  /\ (m !! resolve d f = Some (c :: mid ++ LF :: post) ->
      1 <= lines_loop u (c :: mid ++ LF :: post) 0 ->
      stdout (snd (showLineFromFile u f 1 (World d m out cs)))
      = out ++ text "Content at line " ++ decimal 1 ++ text ":" ++ [LF]
            ++ ((if decide (c = LF) then [] else [c]) ++ mid) ++ [LF]).
Proof.
  intros Hmid. split.
  - intros Hn Hpre Hs Hvalid. split.
    + by apply (showLineFromFile_line_n u d m out cs f n c pre post).
    + rewrite line_breaks_cons, line_breaks_app, line_breaks_cons,
        line_breaks_nil.
      destruct (decide (c = LF)); destruct (decide (LF = LF)); try done; lia.
  - intros Hs Hvalid.
    rewrite (showLineFromFile_runs _ _ _ _ _ _ _ _ Hs) by lia.
    by rewrite show_line_first.
Qed.

Lemma showLineFromFile_counts_behind_first_byte_witness :
  let m : gmap string (list ascii) :=
    list_to_map [("/home/u/a.txt", LF :: lines ["x"; "y"])] in
  stdout (snd (showLineFromFile 0 "a.txt" 2 (World "/home/u" m [] [])))
  = [] ++ text "Content at line " ++ decimal 2 ++ text ":" ++ [LF]
       ++ text "y" ++ [LF]
  /\ stdout (snd (showLineFromFile 0 "a.txt" 1 (World "/home/u" m [] [])))
     = [] ++ text "Content at line " ++ decimal 1 ++ text ":" ++ [LF]
          ++ ((if decide (LF = LF) then [] else [LF]) ++ text "x") ++ [LF].
Proof.
  intros m.
  assert (LF ∉ text "y") as Hy.
  { intros H. apply elem_of_cons in H as [H|H]; [discriminate|].
    by apply elem_of_nil in H. }
  assert (LF ∉ text "x") as Hx.
  { intros H. apply elem_of_cons in H as [H|H]; [discriminate|].
    by apply elem_of_nil in H. }
  split.
  - destruct (showLineFromFile_counts_behind_first_byte 0 "/home/u" m [] []
                "a.txt" 2 LF (text "x") (text "y") [] Hy) as [Hshow _].
    destruct Hshow as [Hshown _].
    + lia.
    + vm_compute. reflexivity.
    + vm_compute. reflexivity.
    + vm_compute. discriminate.
    + exact Hshown.
  - destruct (showLineFromFile_counts_behind_first_byte 0 "/home/u" m [] []
                "a.txt" 1 LF [] (text "x") (lines ["y"]) Hx) as [_ Hfirst].
    apply Hfirst.
    + vm_compute. reflexivity.
    + vm_compute. discriminate.
Defined.

(** ** The changelog *)

Lemma deleteFileFromChangelog_run d m out cs f dir :
  let record := resolve d (dir +:+ "/" +:+ getChangelogFileName f) in
  deleteFileFromChangelog f dir (World d m out cs)
  = match m !! record with
    | Some _ =>
        (SUCCESS, World d (delete record m) out (cs ++ [Call_remove record]))
    | None => (FAILURE, World d m out (cs ++ [Call_remove record]))
    end.
Proof.
  intros record. subst record.
  destruct (m !! resolve d _) as [s|] eqn:Hs; by io_steps.
Qed.

(** The state a call of [addActionToChangelog] that succeeds ends in. *)
Lemma addActionToChangelog_success u d m out cs f a dir w' :
  addActionToChangelog u f a dir (World d m out cs) = (SUCCESS, w') ->
  let record := resolve d (dir +:+ "/" +:+ getChangelogFileName f) in
  exists line cs',
    w' = World d (<[record := default [] (m !! record) ++ line ++ [LF]]> m)
           out cs'.
Proof.
  intros Hrun record. rewrite addActionToChangelog_run in Hrun.
  fold record in Hrun.
  destruct (_ !! resolve d f); [|done].
  apply (f_equal snd) in Hrun. cbn [snd] in Hrun. subst w'.
  by eexists _, _.
Qed.

(** X16. [deleteFileFromChangelog] removes the record of the file in the
    directory it is given, and fails without effect when there is none.
    Called after [addActionToChangelog] has succeeded with the same
    directory it succeeds, and what is left on disk is what was there before
    the action was logged, less the record. *)
Theorem deleteFileFromChangelog_removes_the_record u d m out cs f a dir w' :
  let record := resolve d (dir +:+ "/" +:+ getChangelogFileName f) in
  deleteFileFromChangelog f dir (World d m out cs)
  = match m !! record with
    | Some _ =>
        (SUCCESS, World d (delete record m) out (cs ++ [Call_remove record]))
    | None => (FAILURE, World d m out (cs ++ [Call_remove record]))
    end
  /\ (addActionToChangelog u f a dir (World d m out cs) = (SUCCESS, w') ->
      fst (deleteFileFromChangelog f dir w') = SUCCESS
      /\ files (snd (deleteFileFromChangelog f dir w')) = delete record m).
Proof.
  intros record. split; [apply deleteFileFromChangelog_run|].
  intros Hrun.
  destruct (addActionToChangelog_success _ _ _ _ _ _ _ _ _ Hrun)
    as (line & cs' & ->).
  rewrite deleteFileFromChangelog_run. fold record.
  rewrite lookup_insert_eq. cbn [fst snd files].
  by rewrite delete_insert_eq.
Qed.

Lemma deleteFileFromChangelog_removes_the_record_witness :
  let m : gmap string (list ascii) :=
    list_to_map [("/home/u/a.txt", lines ["x"])] in
  let w' :=
    snd (addActionToChangelog 0 "a.txt" ACTION_READ_FILE "logs"
           (World "/home/u" m [] [])) in
  files (snd (deleteFileFromChangelog "a.txt" "logs" w'))
  = delete (resolve "/home/u" ("logs" +:+ "/" +:+ getChangelogFileName "a.txt"))
      m.
Proof.
  intros m w'.
  destruct (deleteFileFromChangelog_removes_the_record 0 "/home/u" m [] []
              "a.txt" ACTION_READ_FILE "logs" w') as [_ Hafter].
  destruct Hafter as [_ Hfiles].
  - vm_compute. reflexivity.
  - exact Hfiles.
Defined.

(** X17. [addActionToChangelog] opens the record for appending before it
    opens the file: when the file is missing the call fails, and a record
    that did not exist has been created empty all the same. *)
Theorem addActionToChangelog_failure_leaves_record u d m out cs f a dir :
  let record := resolve d (dir +:+ "/" +:+ getChangelogFileName f) in
  m !! resolve d f = None -> resolve d f <> record ->
  fst (addActionToChangelog u f a dir (World d m out cs)) = FAILURE
  /\ files (snd (addActionToChangelog u f a dir (World d m out cs)))
     = match m !! record with
       | Some _ => m
       | None => <[record := []]> m
       end.
Proof.
  intros record Hs Hne. rewrite addActionToChangelog_run. fold record.
  destruct (m !! record) as [r|] eqn:Hr.
  - by rewrite Hs.
  - by rewrite lookup_insert_ne, Hs.
Qed.

Lemma addActionToChangelog_failure_leaves_record_witness :
  let m : gmap string (list ascii) :=
    list_to_map [("/home/u/a.txt", lines ["x"])] in
  files (snd (addActionToChangelog 0 "b.txt" ACTION_READ_FILE "logs"
                (World "/home/u" m [] [])))
    !! "/home/u/logs/b.txt.changelog" = Some [].
Proof.
  intros m.
  destruct (addActionToChangelog_failure_leaves_record 0 "/home/u" m [] []
              "b.txt" ACTION_READ_FILE "logs") as [_ Hfiles].
  - vm_compute. reflexivity.
  - vm_compute. discriminate.
  - rewrite Hfiles. vm_compute. reflexivity.
Defined.

(** X18. Whether it succeeds or fails, [addActionToChangelog] changes no
    file but the changelog record: the file whose action is logged, and
    every other file, keeps its bytes. *)
Theorem addActionToChangelog_changes_the_record_only
    u d m out cs f a dir k :
  k <> resolve d (dir +:+ "/" +:+ getChangelogFileName f) ->
  files (snd (addActionToChangelog u f a dir (World d m out cs))) !! k
  = m !! k.
Proof.
  intros Hk. rewrite addActionToChangelog_run.
  set (record := resolve d (dir +:+ "/" +:+ getChangelogFileName f)) in *.
  destruct (m !! record) as [r|] eqn:Hr.
  - destruct (m !! resolve d f); cbn [snd files];
      by rewrite ?lookup_insert_ne.
  - destruct (<[record := []]> m !! resolve d f); cbn [snd files];
      by rewrite ?lookup_insert_ne.
Qed.

Lemma addActionToChangelog_changes_the_record_only_witness :
  let m : gmap string (list ascii) :=
    list_to_map [("/home/u/a.txt", lines ["x"])] in
  files (snd (addActionToChangelog 0 "a.txt" ACTION_READ_FILE "logs"
                (World "/home/u" m [] []))) !! "/home/u/a.txt"
  = m !! "/home/u/a.txt".
Proof.
  intros m.
  apply (addActionToChangelog_changes_the_record_only 0 "/home/u" m [] []
           "a.txt" ACTION_READ_FILE "logs" "/home/u/a.txt").
  vm_compute. discriminate.
Defined.

(** X19. With the directory [main] computes from an absolute working
    directory, what [addActionToChangelog] has written is what
    [showChangelog] shows: called after a successful logging it succeeds
    and prints the header and the record with the new audit line at its
    end, as far as ["%s"] prints it. *)
Theorem showChangelog_shows_what_was_logged
    u beyond d m out cs f a dir' w' :
  is_absolute d = true ->
  addActionToChangelog u f a (main_changelog_directory (World d m out cs))
    (World d m out cs) = (SUCCESS, w') ->
  let record := resolve d ("changelog/" +:+ getChangelogFileName f) in
  let N := fst (getNumberOfLinesInFile u (resolve d f) (World d m out cs)) in
  fst (showChangelog beyond f dir' w') = SUCCESS
  /\ stdout (snd (showChangelog beyond f dir' w'))
     = out ++ text "Contents of file:" ++ [LF]
           ++ printed beyond
                (default [] (m !! record)
                   ++ audit_line (action_string a) N ++ [LF]).
Proof.
  intros Hd Hrun record N. subst N.
  rewrite getNumberOfLinesInFile_run. cbn [fst].
  rewrite addActionToChangelog_run in Hrun.
  rewrite (main_changelog_record d m out cs f Hd) in Hrun. fold record in Hrun.
  assert (exists cs',
            w' = World d
                   (<[record := default [] (m !! record)
                        ++ audit_line (action_string a)
                             (lines_loop u (default [] (m !! resolve d f)) 0)
                        ++ [LF]]> m) out cs') as [cs' ->].
  { destruct (m !! record) as [r|] eqn:Hr.
    - destruct (m !! resolve d f) as [s|] eqn:Ht; [|done].
      apply (f_equal snd) in Hrun. cbn [snd] in Hrun. subst w'.
      by eexists.
    - destruct (decide (record = resolve d f)) as [e|ne].
      + rewrite <- e, lookup_insert_eq in Hrun. rewrite <- e, Hr.
        apply (f_equal snd) in Hrun. cbn [snd] in Hrun. subst w'.
        by eexists.
      + rewrite lookup_insert_ne in Hrun by done.
        destruct (m !! resolve d f) as [s|] eqn:Ht; [|done].
        apply (f_equal snd) in Hrun. cbn [snd] in Hrun. subst w'.
        by eexists. }
  rewrite showChangelog_run. fold record. by rewrite lookup_insert_eq.
Qed.

Lemma showChangelog_shows_what_was_logged_witness :
  let m : gmap string (list ascii) :=
    list_to_map [("/home/u/a.txt", lines ["x"])] in
  let w := World "/home/u" m [] [] in
  let w' :=
    snd (addActionToChangelog 0 "a.txt" ACTION_APPEND_LINE
           (main_changelog_directory w) w) in
  fst (showChangelog [NUL] "a.txt" "anywhere" w') = SUCCESS.
Proof.
  intros m w w'. subst w.
  destruct (showChangelog_shows_what_was_logged 0 [NUL] "/home/u" m [] []
              "a.txt" ACTION_APPEND_LINE "anywhere" w') as [Hstatus _].
  - reflexivity.
  - vm_compute. reflexivity.
  - exact Hstatus.
Defined.

(** ** Copying *)

(** X20. [copyFile] refuses a new name that is taken before it does
    anything else, fails on a missing source without creating the new file,
    and in no case changes a file other than the new one: the source and
    every other file keep their bytes. *)
Theorem copyFile_refuses_and_spares beyond d m out cs source new k :
  let w := World d m out cs in
  (is_Some (m !! resolve d new) -> copyFile beyond source new w = (FAILURE, w))
  /\ (m !! resolve d source = None ->
      fst (copyFile beyond source new w) = FAILURE
      /\ files (snd (copyFile beyond source new w)) = m)
  /\ (k <> resolve d new ->
      files (snd (copyFile beyond source new w)) !! k = m !! k).
Proof.
  intros w. subst w. rewrite copyFile_run. split_and!.
  - by intros [t ->].
  - intros ->. by destruct (m !! resolve d new).
  - intros Hk. destruct (m !! resolve d new); [done|].
    destruct (m !! resolve d source); [|done].
    cbn [snd files]. by rewrite lookup_insert_ne.
Qed.

Lemma copyFile_refuses_and_spares_witness :
  let m : gmap string (list ascii) :=
    list_to_map [("/home/u/a.txt", lines ["x"]);
                 ("/home/u/b.txt", lines ["y"])] in
  let w := World "/home/u" m [] [] in
  copyFile [] "a.txt" "b.txt" w = (FAILURE, w)
  /\ fst (copyFile [] "c.txt" "d.txt" w) = FAILURE
  /\ files (snd (copyFile [] "a.txt" "c.txt" w)) !! "/home/u/a.txt"
     = m !! "/home/u/a.txt".
Proof.
  intros m w. subst w. split_and!.
  - destruct (copyFile_refuses_and_spares [] "/home/u" m [] []
                "a.txt" "b.txt" "/home/u/a.txt") as (Htaken & _ & _).
    apply Htaken. exists (lines ["y"]). vm_compute. reflexivity.
  - destruct (copyFile_refuses_and_spares [] "/home/u" m [] []
                "c.txt" "d.txt" "/home/u/a.txt") as (_ & Hmissing & _).
    apply Hmissing. vm_compute. reflexivity.
  - destruct (copyFile_refuses_and_spares [] "/home/u" m [] []
                "a.txt" "c.txt" "/home/u/a.txt") as (_ & _ & Hother).
    apply Hother. vm_compute. discriminate.
Defined.

(** X21. When the source holds no NUL byte and a NUL byte follows the
    buffer of [getFileContents] in memory, [copyFile] to a free name
    succeeds and the new file has the bytes of the source. *)
Theorem copyFile_copies_text d m out cs source new s rest :
  m !! resolve d new = None ->
  m !! resolve d source = Some s ->
  NUL ∉ s ->
  let r := copyFile (NUL :: rest) source new (World d m out cs) in
  fst r = SUCCESS
  /\ files (snd r) !! resolve d new = Some s
  /\ files (snd r) !! resolve d source = Some s.
Proof.
  intros Hnew Hsource Hs r. subst r.
  rewrite (copyFile_text d m out cs source new s rest) by done.
  cbn [fst snd files]. split_and!; [done|apply lookup_insert_eq|].
  rewrite lookup_insert_ne by congruence. done.
Qed.

Lemma copyFile_copies_text_witness :
  let m : gmap string (list ascii) :=
    list_to_map [("/home/u/a.txt", text "x")] in
  files (snd (copyFile [NUL] "a.txt" "b.txt" (World "/home/u" m [] [])))
    !! resolve "/home/u" "b.txt" = Some (text "x").
Proof.
  intros m.
  destruct (copyFile_copies_text "/home/u" m [] [] "a.txt" "b.txt"
              (text "x") []) as (_ & Hnew & _).
  - vm_compute. reflexivity.
  - vm_compute. reflexivity.
  - intros H. apply elem_of_cons in H as [H|H]; [discriminate|].
    by apply elem_of_nil in H.
  - exact Hnew.
Defined.

(** ** The input *)

Lemma read_line_whole room l rest :
  LF ∉ l -> (length l < room)%nat ->
  read_line room (l ++ LF :: rest) = (l ++ [LF], rest).
Proof.
  revert room. induction l as [|c l IH]; intros room Hl Hroom.
  - destruct room; [simpl in Hroom; lia|]. simpl.
    by destruct (decide (LF = LF)).
  - destruct room; [simpl in Hroom; lia|]. simpl in *.
    apply not_elem_of_cons in Hl as [Hc Hl].
    destruct (decide (c = LF)); [congruence|].
    by rewrite IH by (done || lia).
Qed.

Lemma read_line_cut l rest :
  LF ∉ l -> read_line (length l) (l ++ rest) = (l, rest).
Proof.
  induction l as [|c l IH]; intros Hl; simpl; [done|].
  apply not_elem_of_cons in Hl as [Hc Hl].
  destruct (decide (c = LF)); [congruence|]. by rewrite IH.
Qed.

Lemma cstring_no_NUL s : NUL ∉ s -> cstring s = s.
Proof.
  induction s as [|c s IH]; intros Hs; simpl; [done|].
  apply not_elem_of_cons in Hs as [Hc Hs].
  destruct (decide (c = NUL)); [congruence|]. by rewrite IH.
Qed.

Lemma token_line l rest : LF ∉ l -> token (l ++ LF :: rest) = l.
Proof.
  induction l as [|c l IH]; intros Hl; simpl.
  - by destruct (decide (LF = LF)).
  - apply not_elem_of_cons in Hl as [Hc Hl].
    destruct (decide (c = LF)); [congruence|]. by rewrite IH.
Qed.

Lemma token_whole l : LF ∉ l -> token l = l.
Proof.
  induction l as [|c l IH]; intros Hl; simpl; [done|].
  apply not_elem_of_cons in Hl as [Hc Hl].
  destruct (decide (c = LF)); [congruence|]. by rewrite IH.
Qed.

Lemma strtok_newline_line c l : c <> LF -> LF ∉ l ->
  strtok_newline (c :: l ++ [LF]) = c :: l.
Proof.
  intros Hc Hl. unfold strtok_newline. simpl.
  destruct (decide (c = LF)); [done|]. simpl.
  destruct (decide (c = LF)); [done|]. by rewrite token_line.
Qed.

Lemma strtok_newline_unterminated c l : c <> LF -> LF ∉ l ->
  strtok_newline (c :: l) = c :: l.
Proof.
  intros Hc Hl. unfold strtok_newline. simpl.
  destruct (decide (c = LF)); [done|]. simpl.
  destruct (decide (c = LF)); [done|]. by rewrite token_whole.
Qed.

Lemma getInput_line msg old size c l rest d m out cs :
  c <> LF -> LF ∉ l -> NUL ∉ c :: l ->
  Z.of_nat (length (c :: l)) + 2 <= size ->
  getInput msg old size (Console (c :: l ++ LF :: rest) (World d m out cs))
  = (c :: l, Console rest (World d m (out ++ text msg) cs)).
Proof.
  intros Hc Hl Hnul Hsize. menu_run.
  pose proof (read_line_whole (Z.to_nat (size - 1)) (c :: l) rest) as Hread.
  simpl app in Hread. rewrite Hread.
  - rewrite cstring_no_NUL.
    + by rewrite (strtok_newline_line c l).
    + change (c :: l ++ [LF]) with ((c :: l) ++ [LF]).
      apply not_elem_of_app. split; [done|].
      apply not_elem_of_cons. split; [done|apply not_elem_of_nil].
  - apply not_elem_of_cons. by split.
  - simpl length in *. lia.
Qed.

(** X22. Given a line of the input that is not empty, holds no NUL byte and
    fits the buffer with its line-break, [getInput] prints the prompt, takes
    the line off the input and leaves the line without its line-break in
    the buffer, whatever the buffer held. *)
Theorem getInput_reads_a_line msg old size c l rest d m out cs :
  c <> LF -> LF ∉ l -> NUL ∉ c :: l ->
  Z.of_nat (length (c :: l)) + 2 <= size ->
  getInput msg old size (Console (c :: l ++ LF :: rest) (World d m out cs))
  = (c :: l, Console rest (World d m (out ++ text msg) cs)).
Proof. apply getInput_line. Qed.

Lemma getInput_reads_a_line_witness :
  getInput "Name: " [] MAX_FILE_NAME_SIZE
    (Console ("a"%char :: text ".txt" ++ LF :: text "2")
       (World "/home/u" ∅ [] []))
  = ("a"%char :: text ".txt",
     Console (text "2") (World "/home/u" ∅ ([] ++ text "Name: ") [])).
Proof.
  apply (getInput_reads_a_line "Name: " [] MAX_FILE_NAME_SIZE "a"%char
           (text ".txt") (text "2") "/home/u" ∅ [] []).
  - discriminate.
  - intros H. repeat (apply elem_of_cons in H as [H|H]; [discriminate|]).
    by apply elem_of_nil in H.
  - intros H. repeat (apply elem_of_cons in H as [H|H]; [discriminate|]).
    by apply elem_of_nil in H.
  - vm_compute. discriminate.
Defined.

(** X23. Two inputs leave something else in the buffer than a line without
    its line-break.  On an empty line [strtok] finds no token and changes
    nothing, so the buffer holds the line-break.  At the end of the input
    [fgets] reads nothing, so the buffer holds what it held before, cut by
    [strtok]. *)
Theorem getInput_empty_line_and_end_of_input msg old size rest d m out cs :
  (2 <= size ->
   getInput msg old size (Console (LF :: rest) (World d m out cs))
   = ([LF], Console rest (World d m (out ++ text msg) cs)))
  /\ getInput msg old size (Console [] (World d m out cs))
     = (strtok_newline old, Console [] (World d m (out ++ text msg) cs)).
Proof.
  split; [|reflexivity].
  intros Hsize. menu_run.
  destruct (Z.to_nat (size - 1)) as [|room] eqn:Hroom; [lia|]. simpl.
  by destruct (decide (LF = LF)).
Qed.

Lemma getInput_empty_line_and_end_of_input_witness :
  getInput "Name: " [] MAX_FILE_NAME_SIZE
    (Console (LF :: text "2") (World "/home/u" ∅ [] []))
  = ([LF], Console (text "2") (World "/home/u" ∅ ([] ++ text "Name: ") [])).
Proof.
  destruct (getInput_empty_line_and_end_of_input "Name: " [] MAX_FILE_NAME_SIZE
              (text "2") "/home/u" ∅ [] []) as [Hempty _].
  apply Hempty. vm_compute. discriminate.
Defined.

(** X24. A line that does not fit the buffer is cut: [getInput] leaves the
    first [var_size - 1] bytes in the buffer and the rest of the line on
    the input, where the next [getInput] finds it. *)
Theorem getInput_cuts_a_long_line msg old size c l rest d m out cs :
  c <> LF -> LF ∉ l -> NUL ∉ c :: l ->
  Z.of_nat (length (c :: l)) = size - 1 ->
  getInput msg old size (Console ((c :: l) ++ rest) (World d m out cs))
  = (c :: l, Console rest (World d m (out ++ text msg) cs)).
Proof.
  intros Hc Hl Hnul Hsize. menu_run.
  replace (Z.to_nat (size - 1)) with (length (c :: l)) by lia.
  change (c :: l ++ rest) with ((c :: l) ++ rest).
  rewrite read_line_cut by (apply not_elem_of_cons; by split).
  change ((c :: l) ++ rest) with (c :: l ++ rest). menu_run.
  rewrite cstring_no_NUL by done.
  by rewrite strtok_newline_unterminated.
Qed.

Lemma getInput_cuts_a_long_line_witness :
  getInput "Name: " [] 4
    (Console (("a"%char :: text "bc") ++ text "def" ++ [LF])
       (World "/home/u" ∅ [] []))
  = ("a"%char :: text "bc",
     Console (text "def" ++ [LF])
       (World "/home/u" ∅ ([] ++ text "Name: ") [])).
Proof.
  apply (getInput_cuts_a_long_line "Name: " [] 4 "a"%char (text "bc")
           (text "def" ++ [LF]) "/home/u" ∅ [] []).
  - discriminate.
  - intros H. repeat (apply elem_of_cons in H as [H|H]; [discriminate|]).
    by apply elem_of_nil in H.
  - intros H. repeat (apply elem_of_cons in H as [H|H]; [discriminate|]).
    by apply elem_of_nil in H.
  - reflexivity.
Defined.

(** ** The functions of the menu *)

Lemma getInput_typed_line msg old size line rest d m out cs :
  typed_line size line = true ->
  getInput msg old size (Console (line ++ LF :: rest) (World d m out cs))
  = (line, Console rest (World d m (out ++ text msg) cs)).
Proof.
  destruct line as [|c l]; [done|]. unfold typed_line.
  intros [[Hlf%bool_decide_eq_true Hnul%bool_decide_eq_true]%andb_true_iff
            Hsize%Z.leb_le]%andb_true_iff.
  apply not_elem_of_cons in Hlf as [Hc Hl].
  by apply (getInput_line msg old size c l rest d m out cs).
Qed.

Lemma run_at {A : Type} (c : io A) (input : list ascii) (w : world) :
  run c (Console input w) = (fst (c w), Console input (snd (c w))).
Proof. unfold run. cbn [process stdin]. by destruct (c w). Qed.

Lemma cio_bind_at {A B : Type} (c : cio A) (f : A -> cio B) k :
  (c ≫= f) k = f (fst (c k)) (snd (c k)).
Proof. unfold mbind, cio_bind. by destruct (c k). Qed.

Lemma cio_ret_at {A : Type} (x : A) (k : console) :
  (mret x : cio A) k = (x, k).
Proof. reflexivity. Qed.

Lemma printf_at s d m out cs :
  printf s (World d m out cs) = (tt, World d m (out ++ s) cs).
Proof. reflexivity. Qed.

Lemma name_of_text line : text (name_of line) = line.
Proof. apply list_ascii_of_string_of_list_ascii. Qed.

Lemma lines_loop_empty u : lines_loop u [] 0 = 0.
Proof. simpl. by destruct (u =? EOF). Qed.

(** ** The functions of the menu *)

(** Logging an action of a file that exists succeeds, and appends one line
    to the record. *)
Lemma addActionToChangelog_logs u d m out cs f a dir s :
  m !! resolve d f = Some s ->
  let record := resolve d (dir +:+ "/" +:+ getChangelogFileName f) in
  exists cs',
    addActionToChangelog u f a dir (World d m out cs)
    = (SUCCESS,
       World d
         (<[record := default [] (m !! record)
              ++ audit_line (action_string a) (lines_loop u s 0) ++ [LF]]> m)
         out cs').
Proof.
  intros Hs record. rewrite addActionToChangelog_run. fold record.
  destruct (m !! record) as [r|] eqn:Hr.
  - rewrite Hs. by eexists.
  - rewrite lookup_insert_ne, Hs; [by eexists|].
    intros e. rewrite e in Hr. congruence.
Qed.

Lemma getInput_empty_line msg old size rest d m out cs :
  2 <= size ->
  getInput msg old size (Console (LF :: rest) (World d m out cs))
  = ([LF], Console rest (World d m (out ++ text msg) cs)).
Proof.
  intros Hsize. menu_run.
  destruct (Z.to_nat (size - 1)) as [|room] eqn:Hroom; [lia|]. simpl.
  by destruct (decide (LF = LF)).
Qed.

Lemma createFileMain_run u file_name_0 dir line rest d m out cs :
  typed_line MAX_FILE_NAME_SIZE line = true ->
  m !! resolve d (name_of line) = None ->
  let target := resolve d (name_of line) in
  let record :=
    resolve d (dir +:+ "/" +:+ getChangelogFileName (name_of line)) in
  exists cs',
    createFileMain u file_name_0 dir
      (Console (line ++ LF :: rest) (World d m out cs))
    = (tt,
       Console rest
         (World d
            (<[record := default [] (<[target := []]> m !! record)
                 ++ audit_line "Created file" 0 ++ [LF]]>
               (<[target := []]> m))
            (out ++ text "Enter the name of the file you want to create: "
                 ++ text "Successully created file '" ++ line ++ text "'"
                 ++ [LF])
            cs')).
Proof.
  intros Hline Hfree target record.
  unfold createFileMain. rewrite cio_bind_at, getInput_typed_line by done.
  cbn [fst snd]. rewrite cio_bind_at, run_at, createFile_run, Hfree.
  cbn [fst snd]. change (negb (truthy SUCCESS)) with true. cbv iota.
  rewrite !cio_bind_at, !run_at, printf_at. cbn [fst snd stdin process].
  rewrite run_at, cio_ret_at. cbn [fst snd stdin process].
  fold target.
  destruct (addActionToChangelog_logs u d (<[target := []]> m)
              ((out ++ text "Enter the name of the file you want to create: ")
                 ++ text "Successully created file '" ++ line ++ text "'"
                 ++ [LF])
              (cs ++ [Call_fopen target Mode_a; Call_fclose target])
              (name_of line) ACTION_CREATE_FILE dir [])
    as [cs' Hlog]; [apply lookup_insert_eq|].
  rewrite Hlog. cbn [snd]. rewrite lines_loop_empty, <- app_assoc.
  by exists cs'.
Qed.

(** X25. [createFileMain], given the name of a file that does not exist,
    creates it empty, reports it, and logs the creation: the changelog
    record of the file gets the line
    ["[Created file] Number of lines after action: 0"]. *)
Theorem createFileMain_creates_and_logs
    u file_name_0 dir line rest d m out cs :
  typed_line MAX_FILE_NAME_SIZE line = true ->
  fits_changelog dir line = true ->
  m !! resolve d (name_of line) = None ->
  let target := resolve d (name_of line) in
  let record :=
    resolve d (dir +:+ "/" +:+ getChangelogFileName (name_of line)) in
  let k' :=
    snd (createFileMain u file_name_0 dir
           (Console (line ++ LF :: rest) (World d m out cs))) in
  stdin k' = rest
  /\ files (process k')
     = <[record := default [] (<[target := []]> m !! record)
                     ++ audit_line "Created file" 0 ++ [LF]]>
         (<[target := []]> m)
  /\ stdout (process k')
     = out ++ text "Enter the name of the file you want to create: "
           ++ text "Successully created file '" ++ line ++ text "'" ++ [LF].
Proof.
  intros Hline _ Hfree target record k'. subst k'.
  destruct (createFileMain_run u file_name_0 dir line rest d m out cs)
    as [cs' ->]; done.
Qed.

Lemma createFileMain_creates_and_logs_witness :
  let k' :=
    snd (createFileMain 0 [] "/home/u/changelog"
           (Console (text "a.txt" ++ LF :: text "2")
              (World "/home/u" ∅ [] []))) in
  stdin k' = text "2"
  /\ files (process k')
     = {[ "/home/u/changelog/a.txt.changelog" :=
            text "[Created file] Number of lines after action: 0" ++ [LF];
          "/home/u/a.txt" := [] ]}
  /\ stdout (process k')
     = text "Enter the name of the file you want to create: "
         ++ text "Successully created file 'a.txt'" ++ [LF].
Proof.
  pose proof (createFileMain_creates_and_logs 0 [] "/home/u/changelog"
                (text "a.txt") (text "2") "/home/u" ∅ [] []
                eq_refl eq_refl eq_refl) as H.
  cbv zeta in H |- *. destruct H as (Hin & Hfiles & Hout).
  split_and!; [exact Hin| |exact Hout].
  rewrite Hfiles. vm_compute. reflexivity.
Defined.

Lemma deleteFileMain_run file_name_0 dir line rest d m out cs s :
  typed_line MAX_FILE_NAME_SIZE line = true ->
  m !! resolve d (name_of line) = Some s ->
  let target := resolve d (name_of line) in
  let record :=
    resolve d (dir +:+ "/" +:+ getChangelogFileName (name_of line)) in
  exists cs',
    deleteFileMain file_name_0 dir
      (Console (line ++ LF :: rest) (World d m out cs))
    = (tt,
       Console rest
         (World d (delete record (delete target m))
            (out ++ text "Enter the name of the file you want to delete: "
                 ++ text "Successfully deleted file '" ++ line ++ text "'"
                 ++ [LF])
            cs')).
Proof.
  intros Hline Hs target record.
  unfold deleteFileMain. rewrite cio_bind_at, getInput_typed_line by done.
  cbn [fst snd]. rewrite cio_bind_at, run_at, deleteFile_run, Hs.
  cbn [fst snd]. change (negb (truthy SUCCESS)) with true. cbv iota.
  rewrite !cio_bind_at, !run_at, printf_at. cbn [fst snd stdin process].
  rewrite run_at, cio_ret_at. cbn [fst snd stdin process].
  rewrite deleteFileFromChangelog_run. fold target record.
  rewrite <- app_assoc.
  destruct (delete target m !! record) as [r|] eqn:Hr; cbn [snd].
  - by eexists.
  - rewrite (delete_id (delete target m) record) by done. by eexists.
Qed.

(** X26. Creating a file at the menu and then deleting it at the menu
    leaves the files as they were, when neither the file nor its record
    existed: [deleteFileMain] removes the file and, with it, the record
    that [createFileMain] started. *)
Theorem createFileMain_then_deleteFileMain_restores
    u file_name_0 file_name_1 dir line rest d m out cs :
  typed_line MAX_FILE_NAME_SIZE line = true ->
  fits_changelog dir line = true ->
  m !! resolve d (name_of line) = None ->
  m !! resolve d (dir +:+ "/" +:+ getChangelogFileName (name_of line))
  = None ->
  let k1 :=
    snd (createFileMain u file_name_0 dir
           (Console (line ++ LF :: line ++ LF :: rest)
              (World d m out cs))) in
  let k2 := snd (deleteFileMain file_name_1 dir k1) in
  stdin k2 = rest
  /\ files (process k2) = m
  /\ stdout (process k2)
     = out ++ text "Enter the name of the file you want to create: "
           ++ text "Successully created file '" ++ line ++ text "'" ++ [LF]
           ++ text "Enter the name of the file you want to delete: "
           ++ text "Successfully deleted file '" ++ line ++ text "'" ++ [LF].
Proof.
  intros Hline _ Hfree Hrecord k1 k2. subst k1 k2.
  destruct (createFileMain_run u file_name_0 dir line (line ++ LF :: rest)
              d m out cs) as [cs1 ->]; [done..|].
  cbn [snd].
  set (target := resolve d (name_of line)) in *.
  set (record :=
         resolve d (dir +:+ "/" +:+ getChangelogFileName (name_of line)))
    in *.
  set (m1 := <[record := _]> _).
  assert (exists s, m1 !! target = Some s) as [s Hs].
  { subst m1. destruct (decide (record = target)) as [->|ne].
    - rewrite lookup_insert_eq. by eexists.
    - rewrite lookup_insert_ne, lookup_insert_eq by done. by eexists. }
  destruct (deleteFileMain_run file_name_1 dir line rest d m1
              (out ++ text "Enter the name of the file you want to create: "
                   ++ text "Successully created file '" ++ line ++ text "'"
                   ++ [LF]) cs1 s) as [cs2 ->]; [done..|].
  cbn [snd stdin process files stdout]. fold target record.
  split_and!; [done| |by rewrite <- !app_assoc].
  subst m1. apply map_eq. intros i.
  destruct (decide (i = record)) as [->|Hr].
  { by rewrite lookup_delete_eq. }
  rewrite lookup_delete_ne by done.
  destruct (decide (i = target)) as [->|Ht].
  { by rewrite lookup_delete_eq. }
  by rewrite lookup_delete_ne, !lookup_insert_ne by done.
Qed.

Lemma createFileMain_then_deleteFileMain_restores_witness :
  let m : gmap string (list ascii) :=
    list_to_map [("/home/u/b.txt", lines ["x"])] in
  let k1 :=
    snd (createFileMain 0 [] "/home/u/changelog"
           (Console (text "a.txt" ++ LF :: text "a.txt" ++ LF :: text "2")
              (World "/home/u" m [] []))) in
  let k2 := snd (deleteFileMain [] "/home/u/changelog" k1) in
  stdin k2 = text "2" /\ files (process k2) = m.
Proof.
  intros m.
  pose proof (createFileMain_then_deleteFileMain_restores 0 [] []
                "/home/u/changelog" (text "a.txt") (text "2") "/home/u" m
                [] [] eq_refl eq_refl eq_refl eq_refl) as H.
  cbv zeta in H |- *. destruct H as (Hin & Hfiles & _).
  split; [exact Hin|exact Hfiles].
Defined.

Lemma appendLineMain_run
    u file_name_0 line_content_0 dir line input content rest d m out cs s :
  typed_line MAX_FILE_NAME_SIZE line = true ->
  (forall out0,
     getInput ("Enter the content you want to append:"
                 +:+ String LF EmptyString)
       line_content_0 MAX_LINE_CONTENT_SIZE
       (Console input (World d m out0 cs))
     = (content,
        Console rest
          (World d m
             (out0 ++ text "Enter the content you want to append:" ++ [LF])
             cs))) ->
  m !! resolve d (name_of line) = Some s ->
  let target := resolve d (name_of line) in
  let record :=
    resolve d (dir +:+ "/" +:+ getChangelogFileName (name_of line)) in
  let s' := s ++ content ++ [LF] in
  let m' := <[target := s']> m in
  exists cs',
    appendLineMain u file_name_0 line_content_0 dir
      (Console (line ++ LF :: input) (World d m out cs))
    = (tt,
       Console rest
         (World d
            (<[record := default [] (m' !! record)
                 ++ audit_line "Appended line" (lines_loop u s' 0)
                 ++ [LF]]> m')
            (out ++ text "Enter the file you want to append content to: "
                 ++ text "Enter the content you want to append:" ++ [LF]
                 ++ text "Sucessfully appended content to file '" ++ line
                 ++ text "'" ++ [LF])
            cs')).
Proof.
  intros Hline Hcontent Hs target record s' m'.
  unfold appendLineMain. rewrite cio_bind_at, getInput_typed_line by done.
  cbn [fst snd]. rewrite cio_bind_at, Hcontent.
  cbn [fst snd]. rewrite cio_bind_at, run_at, appendLineToFile_run, Hs.
  cbn [fst snd]. change (negb (truthy SUCCESS)) with true. cbv iota.
  rewrite !cio_bind_at, !run_at, printf_at. cbn [fst snd stdin process].
  rewrite run_at, cio_ret_at. cbn [fst snd stdin process].
  fold target s' m'.
  match goal with
  | |- context [addActionToChangelog u _ _ _ (World d m' ?o ?c)] =>
      destruct (addActionToChangelog_logs u d m' o c (name_of line)
                  ACTION_APPEND_LINE dir s') as [cs' Hlog];
      [apply lookup_insert_eq|]
  end.
  rewrite Hlog. cbn [snd]. exists cs'. do 3 f_equal.
  by rewrite <- !app_assoc.
Qed.

(** X27. [appendLineMain], given the name of a file and a line of content,
    appends the content and a line-break to the file, reports it, and logs
    it: the record of the file gets the line
    ["[Appended line] Number of lines after action: <N>"] with the count of
    the lines of the file as it then is. *)
Theorem appendLineMain_appends_and_logs
    u file_name_0 line_content_0 dir line content rest d m out cs s :
  typed_line MAX_FILE_NAME_SIZE line = true ->
  fits_changelog dir line = true ->
  typed_line MAX_LINE_CONTENT_SIZE content = true ->
  m !! resolve d (name_of line) = Some s ->
  let target := resolve d (name_of line) in
  let record :=
    resolve d (dir +:+ "/" +:+ getChangelogFileName (name_of line)) in
  let s' := s ++ content ++ [LF] in
  let m' := <[target := s']> m in
  let k' :=
    snd (appendLineMain u file_name_0 line_content_0 dir
           (Console (line ++ LF :: content ++ LF :: rest)
              (World d m out cs))) in
  stdin k' = rest
  /\ files (process k')
     = <[record := default [] (m' !! record)
                     ++ audit_line "Appended line" (lines_loop u s' 0)
                     ++ [LF]]> m'
  /\ stdout (process k')
     = out ++ text "Enter the file you want to append content to: "
           ++ text "Enter the content you want to append:" ++ [LF]
           ++ text "Sucessfully appended content to file '" ++ line
           ++ text "'" ++ [LF].
Proof.
  intros Hline _ Hcontent Hs target record s' m' k'. subst k'.
  destruct (appendLineMain_run u file_name_0 line_content_0 dir line
              (content ++ LF :: rest) content rest d m out cs s)
    as [cs' ->]; [done| |done|done].
  intros out0. by rewrite getInput_typed_line.
Qed.

Lemma appendLineMain_appends_and_logs_witness :
  let m : gmap string (list ascii) :=
    list_to_map [("/home/u/a.txt", lines ["x"])] in
  let k' :=
    snd (appendLineMain 0 [] [] "/home/u/changelog"
           (Console (text "a.txt" ++ LF :: text "y" ++ LF :: text "2")
              (World "/home/u" m [] []))) in
  stdin k' = text "2"
  /\ files (process k')
     = list_to_map
         [("/home/u/a.txt", lines ["x"; "y"]);
          ("/home/u/changelog/a.txt.changelog",
           text "[Appended line] Number of lines after action: 2" ++ [LF])].
Proof.
  intros m.
  pose proof (appendLineMain_appends_and_logs 0 [] [] "/home/u/changelog"
                (text "a.txt") (text "y") (text "2") "/home/u" m [] []
                (lines ["x"]) eq_refl eq_refl eq_refl eq_refl) as H.
  cbv zeta in H |- *. destruct H as (Hin & Hfiles & _).
  split; [exact Hin|]. rewrite Hfiles. vm_compute. reflexivity.
Defined.

(** X28. An empty line of content is not an empty string: [getInput] leaves
    the line-break in the buffer, so [appendLineMain] appends two
    line-breaks, and the file grows by two lines, not one. *)
Theorem appendLineMain_empty_content_appends_two_line_breaks
    u file_name_0 line_content_0 dir line rest d m out cs s :
  typed_line MAX_FILE_NAME_SIZE line = true ->
  fits_changelog dir line = true ->
  m !! resolve d (name_of line) = Some s ->
  let target := resolve d (name_of line) in
  let record :=
    resolve d (dir +:+ "/" +:+ getChangelogFileName (name_of line)) in
  let s' := s ++ [LF; LF] in
  let m' := <[target := s']> m in
  let k' :=
    snd (appendLineMain u file_name_0 line_content_0 dir
           (Console (line ++ LF :: LF :: rest) (World d m out cs))) in
  stdin k' = rest
  /\ files (process k')
     = <[record := default [] (m' !! record)
                     ++ audit_line "Appended line" (lines_loop u s' 0)
                     ++ [LF]]> m'
  /\ line_breaks s' = line_breaks s + 2.
Proof.
  intros Hline _ Hs target record s' m' k'. subst k'.
  destruct (appendLineMain_run u file_name_0 line_content_0 dir line
              (LF :: rest) [LF] rest d m out cs s)
    as [cs' ->]; [done| |done|].
  { intros out0. by rewrite getInput_empty_line. }
  split_and!; [done|done|].
  subst s'. rewrite line_breaks_app. reflexivity.
Qed.

Lemma appendLineMain_empty_content_appends_two_line_breaks_witness :
  let m : gmap string (list ascii) :=
    list_to_map [("/home/u/a.txt", lines ["x"])] in
  let k' :=
    snd (appendLineMain 0 [] [] "/home/u/changelog"
           (Console (text "a.txt" ++ LF :: LF :: text "2")
              (World "/home/u" m [] []))) in
  stdin k' = text "2"
  /\ files (process k')
     = list_to_map
         [("/home/u/a.txt", lines ["x"; EmptyString; EmptyString]);
          ("/home/u/changelog/a.txt.changelog",
           text "[Appended line] Number of lines after action: 3" ++ [LF])].
Proof.
  intros m.
  pose proof (appendLineMain_empty_content_appends_two_line_breaks 0 [] []
                "/home/u/changelog" (text "a.txt") (text "2") "/home/u" m
                [] [] (lines ["x"]) eq_refl eq_refl eq_refl) as H.
  cbv zeta in H |- *. destruct H as (Hin & Hfiles & _).
  split; [exact Hin|]. rewrite Hfiles. vm_compute. reflexivity.
Defined.

(** X29. [insertLineMain] with a line number that [atoi] turns into a
    number below 1 or above the line count, as it does any text that is not
    a number, changes no file, logs nothing and prints nothing but its
    three prompts. *)
Theorem insertLineMain_rejects_line_number
    u (atoi : list ascii -> Z) file_name_0 line_number_0 line_content_0
    dir line number content rest d m out cs s :
  typed_line MAX_FILE_NAME_SIZE line = true ->
  typed_line DEFAULT_INPUT_BUFFER number = true ->
  typed_line MAX_LINE_CONTENT_SIZE content = true ->
  m !! resolve d (name_of line) = Some s ->
  atoi number < 1 \/ lines_loop u s 0 < atoi number ->
  let k' :=
    snd (insertLineMain u atoi file_name_0 line_number_0 line_content_0 dir
           (Console (line ++ LF :: number ++ LF :: content ++ LF :: rest)
              (World d m out cs))) in
  stdin k' = rest
  /\ files (process k') = m
  /\ stdout (process k')
     = out ++ text "Enter the file you want to insert a line into: "
           ++ text "Enter the line number you want to insert content at: "
           ++ text "Enter the content you want to insert: ".
Proof.
  intros Hline Hnumber Hcontent Hs Hn k'. subst k'.
  unfold insertLineMain.
  rewrite cio_bind_at, getInput_typed_line by done. cbn [fst snd].
  rewrite cio_bind_at, getInput_typed_line by done. cbn [fst snd].
  rewrite cio_bind_at, getInput_typed_line by done. cbn [fst snd].
  cbv zeta. rewrite cio_bind_at, run_at.
  rewrite (insertLineInFile_rejects u d m _ _ _ _ _ s) by done.
  cbn [fst snd]. change (negb (truthy FAILURE)) with false. cbv iota.
  rewrite cio_ret_at. cbn [snd stdin process files stdout].
  by rewrite <- !app_assoc.
Qed.

Lemma insertLineMain_rejects_line_number_witness :
  let m : gmap string (list ascii) :=
    list_to_map [("/home/u/a.txt", lines ["x"])] in
  let k' :=
    snd (insertLineMain 0 (fun _ => 0) [] [] [] "/home/u/changelog"
           (Console (text "a.txt" ++ LF :: text "one" ++ LF
                       :: text "y" ++ LF :: text "2")
              (World "/home/u" m [] []))) in
  stdin k' = text "2" /\ files (process k') = m.
Proof.
  intros m.
  pose proof (insertLineMain_rejects_line_number 0 (fun _ => 0) [] [] []
                "/home/u/changelog" (text "a.txt") (text "one") (text "y")
                (text "2") "/home/u" m [] [] (lines ["x"])
                eq_refl eq_refl eq_refl eq_refl
                (or_introl eq_refl)) as H.
  cbv zeta in H |- *. destruct H as (Hin & Hfiles & _).
  split; [exact Hin|exact Hfiles].
Defined.

Lemma displayNumberOfLinesInFile_run u d m out cs f s :
  m !! resolve d f = Some s ->
  displayNumberOfLinesInFile u f (World d m out cs)
  = (SUCCESS,
     World d m
       (out ++ text "Number of lines in '" ++ text f ++ text "': "
            ++ decimal (lines_loop u s 0) ++ [LF])
       (cs ++ [Call_fopen (resolve d f) Mode_r; Call_scan (resolve d f);
               Call_fclose (resolve d f)])).
Proof.
  intros Hs. cbv beta iota zeta delta [displayNumberOfLinesInFile].
  io_steps. f_equal. f_equal; by rewrite <- !app_assoc.
Qed.

(** X30. [getLinesMain], given the name of a file that exists, prints the
    number of its line-breaks, when the count enters its loop, and logs the
    reading with the same number: the record of the file gets the line
    ["[Read File] Number of lines after action: <N>"].  No other file
    changes. *)
Theorem getLinesMain_prints_and_logs
    u file_name_0 dir line rest d m out cs s :
  typed_line MAX_FILE_NAME_SIZE line = true ->
  fits_changelog dir line = true ->
  u <> EOF ->
  m !! resolve d (name_of line) = Some s ->
  let record :=
    resolve d (dir +:+ "/" +:+ getChangelogFileName (name_of line)) in
  let k' :=
    snd (getLinesMain u file_name_0 dir
           (Console (line ++ LF :: rest) (World d m out cs))) in
  stdin k' = rest
  /\ files (process k')
     = <[record := default [] (m !! record)
                     ++ audit_line "Read File" (line_breaks s) ++ [LF]]> m
  /\ stdout (process k')
     = out
         ++ text "Enter the file you want to count the number of lines from: "
         ++ text "Number of lines in '" ++ line ++ text "': "
         ++ decimal (line_breaks s) ++ [LF].
Proof.
  intros Hline _ Hu Hs record k'. subst k'.
  unfold getLinesMain.
  rewrite cio_bind_at, getInput_typed_line by done. cbn [fst snd].
  rewrite cio_bind_at, run_at.
  rewrite (displayNumberOfLinesInFile_run u d m _ _ _ s) by done.
  cbn [fst snd]. change (truthy SUCCESS) with false. cbv iota.
  rewrite cio_bind_at, run_at, cio_ret_at. cbn [fst snd stdin process].
  match goal with
  | |- context [addActionToChangelog u _ _ _ (World d m ?o ?c)] =>
      destruct (addActionToChangelog_logs u d m o c (name_of line)
                  ACTION_READ_FILE dir s) as [cs' Hlog]; [done|]
  end.
  rewrite Hlog. cbn [snd files stdout]. fold record.
  rewrite lines_loop_entered, Z.add_0_l, name_of_text by done.
  split_and!; [done|done|by rewrite <- !app_assoc].
Qed.

Lemma getLinesMain_prints_and_logs_witness :
  let m : gmap string (list ascii) :=
    list_to_map [("/home/u/a.txt", lines ["x"; "y"])] in
  let k' :=
    snd (getLinesMain 0 [] "/home/u/changelog"
           (Console (text "a.txt" ++ LF :: text "2")
              (World "/home/u" m [] []))) in
  stdin k' = text "2"
  /\ stdout (process k')
     = text "Enter the file you want to count the number of lines from: "
         ++ text "Number of lines in 'a.txt': 2" ++ [LF].
Proof.
  intros m.
  pose proof (getLinesMain_prints_and_logs 0 [] "/home/u/changelog"
                (text "a.txt") (text "2") "/home/u" m [] []
                (lines ["x"; "y"]) eq_refl eq_refl ltac:(discriminate)
                eq_refl) as H.
  cbv zeta in H |- *. destruct H as (Hin & _ & Hout).
  split; [exact Hin|]. rewrite Hout. vm_compute. reflexivity.
Defined.
